(** * social.backends.oauth: the OAuth1 and OAuth2 flow engines

    A shallow embedding of [social/backends/oauth.py] (classes [OAuthAuth],
    [BaseOAuth1] and [BaseOAuth2]) and the properties of its
    response normaliser, error classification, pending-token matching and
    CSRF-state handling.

    Python dictionaries are finite maps with string keys ([gmap string _]),
    Python sets of strings are [gset string], exceptions are values of
    [exn] returned through [result], and the session store is threaded
    explicitly through the monad [M]. *)

From Stdlib Require Import ZArith String Ascii List Lia.
From stdpp Require Import base option gmap sets list strings.

Local Open Scope Z_scope.
Local Open Scope string_scope.

(** ** Python values *)

(** A flat dictionary of strings: request parameters, and what [parse_qs]
    returns for an url-encoded body. *)
Abbreviation qs := (gmap string string).

(** An entry of the pending-token list of OAuth1: the raw body the provider
    answered with (a string), or an already structured token (a dict). *)
Inductive token : Type :=
| TokStr (s : string)
| TokDict (d : qs).

(** The values found in provider responses and in the session store. *)
Inductive pyval : Type :=
| PNone
| PBool (b : bool)
| PInt (z : Z)
| PStr (s : string)
| PDict (d : qs)
| PTokens (l : list token).

Abbreviation dict := (gmap string pyval).

#[global] Instance token_eq_dec : EqDecision token.
Proof. solve_decision. Defined.

#[global] Instance pyval_eq_dec : EqDecision pyval.
Proof. solve_decision. Defined.

(** Truth value of an object, as tested by [if v], [not v] and [v or w]. *)
Definition truthy (v : pyval) : bool :=
  match v with
  | PNone => false
  | PBool b => b
  | PInt z => negb (Z.eqb z 0)
  | PStr s => negb (bool_decide (s = ""))
  | PDict d => negb (bool_decide (d = ∅))
  | PTokens l => negb (bool_decide (l = []))
  end.

(** [a == b]: structural, except that booleans compare as the integers 0
    and 1. *)
Definition py_eq (a b : pyval) : bool :=
  match a, b with
  | PBool x, PInt y => Z.eqb (Z.b2z x) y
  | PInt x, PBool y => Z.eqb x (Z.b2z y)
  | _, _ => bool_decide (a = b)
  end.

(** [a or b] *)
Definition py_or (a b : pyval) : pyval := if truthy a then a else b.

(** [d.get(k)] and [d.get(k, default)] *)
Definition dict_get (d : dict) (k : string) : pyval := default PNone (d !! k).
Definition dict_get_default (d : dict) (k : string) (dflt : pyval) : pyval :=
  default dflt (d !! k).

(** [d.update(e)]: the keys of [e] win. *)
Definition dict_update (d e : dict) : dict := e ∪ d.

(** Request parameters seen as a dictionary of values. *)
Definition params_dict (data : qs) : dict := PStr <$> data.

(** ** Exceptions *)

(** The exception classes the module raises or lets through. The backend
    that every [Auth*] exception carries as first argument is the receiver
    of the call and is not repeated here; [msg] is the remaining argument,
    [None] when the exception is built from the backend alone. *)
Inductive exn : Type :=
| AuthCanceled (msg : option pyval)
| AuthFailed (msg : option pyval)
| AuthUnknownError (msg : option pyval)
| AuthMissingParameter (parameter : string)
| AuthStateMissing (parameter : string)
| AuthStateForbidden
| AuthTokenError (msg : string)
| HTTPError (status_code : Z)
| KeyError (key : string)
| TypeError
| OtherError (description : string).

Inductive result (A : Type) : Type :=
| Ok (a : A)
| Raise (e : exn).
Arguments Ok {A} a.
Arguments Raise {A} e.

#[global] Instance exn_eq_dec : EqDecision exn.
Proof. solve_decision. Defined.

Definition result_bind {A B} (r : result A) (k : A -> result B) : result B :=
  match r with
  | Ok a => k a
  | Raise e => Raise e
  end.

(** ** The session store and the flow monad *)

(** What the strategy holds between two requests: the session store, and
    the state of the generator behind [strategy.random_string]. *)
Record world : Type := World {
  session : dict;
  seed : N;
}.

(** A flow step reads and writes the world and returns or raises; what it
    wrote before raising stays written. *)
Definition M (A : Type) : Type := world -> result A * world.

Definition ret {A} (a : A) : M A := fun w => (Ok a, w).
Definition raise {A} (e : exn) : M A := fun w => (Raise e, w).
Definition lift {A} (r : result A) : M A := fun w => (r, w).
Definition bind {A B} (c : M A) (k : A -> M B) : M B :=
  fun w =>
    match c w with
    | (Ok a, w') => k a w'
    | (Raise e, w') => (Raise e, w')
    end.

Notation "'let!' x ':=' c 'in' k" := (bind c (fun x => k))
  (at level 10, x name, c at level 100, k at level 200).
Notation "'do!' c 'in' k" := (bind c (fun _ => k))
  (at level 10, c at level 100, k at level 200).

(** [strategy.session_get(name)], [strategy.session_get(name, default)]
    and [strategy.session_set(name, value)] *)
Definition session_get (name : string) : M pyval :=
  fun w => (Ok (dict_get (session w) name), w).
Definition session_get_default (name : string) (dflt : pyval) : M pyval :=
  fun w => (Ok (dict_get_default (session w) name dflt), w).
Definition session_set (name : string) (value : pyval) : M unit :=
  fun w => (Ok tt, World (<[name := value]> (session w)) (seed w)).

(** ** Configuration *)

(** An entry of [EXTRA_DATA]. The code accepts a bare name, or a list or
    tuple; it unpacks the sequences of length 1, 2 and 3 into
    [name], [alias] and [discard], and looks at no field of the others.
    Names and aliases are dictionary keys, hence strings; the discard flag
    is any value, tested for truth. *)
Inductive entry : Type :=
| EName (name : string)
| ESeq0
| ESeq1 (name : string)
| ESeq2 (name alias : string)
| ESeq3 (name alias : string) (discard : pyval)
| ESeqLong (f1 f2 f3 f4 : pyval) (more : list pyval).

(** The signature material handed to the signing library by
    [BaseOAuth1.oauth_auth]. *)
Record oauth1_signature : Type := OAuth1 {
  client_key : string;
  client_secret : string;
  resource_owner_key : option string;
  resource_owner_secret : option string;
  callback_uri : string;
  verifier : option string;
}.

(** A request handed to the transport. *)
Record request : Type := Request {
  req_url : string;
  req_method : string;
  req_data : dict;
  req_headers : qs;
  req_auth : option oauth1_signature;
}.

(** A backend instance: the class attributes of [OAuthAuth], [BaseOAuth1]
    and [BaseOAuth2], the settings read through [self.setting], and the
    collaborators reached through [self]: the methods inherited from
    [BaseAuth] ([get_key_and_secret], [auth_extra_arguments],
    [get_querystring], [get_json]), the [user_data] hook (called with the
    access token and, in OAuth2, the [response] keyword), and the
    strategy's [random_string] and [authenticate]. *)
Record backend : Type := Backend {
  name : string;
  redirect_uri : string;
  (* OAuthAuth *)
  SCOPE_PARAMETER_NAME : string;
  DEFAULT_SCOPE : option (list string);
  SCOPE_SEPARATOR : string;
  EXTRA_DATA : option (list entry);
  ACCESS_TOKEN_METHOD : string;
  setting_EXTRA_DATA : option (list entry);
  setting_SCOPE : option (list string);
  (* BaseOAuth1 *)
  OAUTH_TOKEN_PARAMETER_NAME : string;
  (* BaseOAuth1 and BaseOAuth2 *)
  AUTHORIZATION_URL : string;
  ACCESS_TOKEN_URL : string;
  (* BaseOAuth2 *)
  RESPONSE_TYPE : pyval;
  REDIRECT_STATE : bool;
  STATE_PARAMETER : bool;
  (* collaborators *)
  get_key_and_secret : string * string;
  auth_extra_arguments : dict;
  get_querystring : request -> result qs;
  get_json : request -> result dict;
  user_data : pyval -> option dict -> result (option dict);
  random_string : nat -> N -> string * N;
  authenticate : option dict -> result pyval;
}.

(** [self.setting(name, default)] for the two settings the module reads *)
Definition setting {A} (value : option A) (dflt : A) : A := default dflt value.

(** ** Plain instances of the imported helpers, for the examples *)

Fixpoint split_on (sep : ascii) (s : string) : list string :=
  match s with
  | EmptyString => [EmptyString]
  | String c s' =>
      if Ascii.eqb c sep then EmptyString :: split_on sep s'
      else match split_on sep s' with
           | [] => [String c EmptyString]
           | w :: ws => String c w :: ws
           end
  end.

Fixpoint cut_at (sep : ascii) (s : string) : option (string * string) :=
  match s with
  | EmptyString => None
  | String c s' =>
      if Ascii.eqb c sep then Some (EmptyString, s')
      else match cut_at sep s' with
           | Some (k, v) => Some (String c k, v)
           | None => None
           end
  end.

(** Modelled from the spec: [social.utils.parse_qs] is not among the
    sources, and the spec says only that string-encoded entries are parsed
    into structured form. The flows take it as a parameter; this instance
    is the one of the examples. It reads [k1=v1&k2=v2], keeps the first
    value of a repeated key and drops blank values, and does no percent
    decoding. *)
Definition parse_qs_plain (s : string) : qs :=
  foldr (fun piece acc =>
           match cut_at "=" piece with
           | Some (k, v) => if bool_decide (v = "") then acc else <[k := v]> acc
           | None => acc
           end) ∅ (split_on "&" s).

(** Modelled from the spec: [strategy.random_string] belongs to the host;
    the spec asks for an opaque string of the requested length. This
    instance repeats one letter chosen by the seed. *)
Definition random_string_plain (n : nat) (sd : N) : string * N :=
  (string_of_list_ascii (repeat (ascii_of_N (97 + sd mod 26)) n), N.succ sd).

Definition str_of (v : pyval) : string :=
  match v with
  | PStr s => s
  | PBool true => "True"
  | PBool false => "False"
  | PNone => "None"
  | _ => ""
  end.

(** Modelled from the spec: [social.p3.urlencode], [social.p3.unquote] and
    [social.utils.url_add_parameters] are not among the sources; the flows
    take them as parameters. These instances join [k=v] pairs and leave
    every character as it is. *)
Definition urlencode_plain (params : dict) : string :=
  String.concat "&" (map (fun kv => fst kv +:+ "=" +:+ str_of (snd kv))
                         (map_to_list params)).

Definition unquote_plain (s : string) : string := s.

Definition url_add_parameters_plain (uri : string) (params : dict) : string :=
  uri +:+ "?" +:+ urlencode_plain params.

(** ** class OAuthAuth *)

Module OAuthAuth.

(** [if not isinstance(entry, (list, tuple)): entry = (entry,)] *)
Definition as_sequence (e : entry) : entry :=
  match e with
  | EName n => ESeq1 n
  | _ => e
  end.

(** [len(entry)] *)
Definition len (e : entry) : nat :=
  match e with
  | EName n => String.length n
  | ESeq0 => 0
  | ESeq1 _ => 1
  | ESeq2 _ _ => 2
  | ESeq3 _ _ _ => 3
  | ESeqLong _ _ _ _ more => 4 + length more
  end.

(** The three unpacking branches, on [size == 3], [size == 2] and
    [size == 1]. *)
Definition unpack (e : entry) : option (string * string * pyval) :=
  match e with
  | ESeq3 name alias discard => Some (name, alias, discard)
  | ESeq2 name alias => Some (name, alias, PBool false)
  | ESeq1 name => Some (name, name, PBool false)
  | _ => None
  end.

(** The body of the loop of [extra_data], on the accumulated [data]. *)
Definition extra_data_entry (response data : dict) (e : entry) : dict :=
  let e := as_sequence e in
  let size := len e in
  if Nat.leb 1 size && Nat.leb size 3 then
    match unpack e with
    | Some (name, alias, discard) =>
        let value := dict_get response name in
        if truthy discard && negb (truthy value) then data
        else <[alias := value]> data
    | None => data
    end
  else data.

Definition names (self : backend) : list entry :=
  default [] (EXTRA_DATA self) ++ setting (setting_EXTRA_DATA self) [].

Definition extra_data (self : backend) (response : dict) : dict :=
  let data : dict :=
    {[ "access_token" := dict_get_default response "access_token" (PStr "") ]} in
  foldl (extra_data_entry response) data (names self).

Definition get_scope (self : backend) : list string :=
  default [] (DEFAULT_SCOPE self) ++ setting (setting_SCOPE self) [].

Definition get_scope_argument (self : backend) : dict :=
  let scope := get_scope self in
  if bool_decide (scope = []) then ∅
  else {[ SCOPE_PARAMETER_NAME self :=
            PStr (String.concat (SCOPE_SEPARATOR self) scope) ]}.

End OAuthAuth.

(** ** class BaseOAuth1 *)

Module BaseOAuth1.
Section Imports.

(** [social.utils.parse_qs] *)
Variable parse_qs : string -> qs.

Definition process_error (data : qs) : result unit :=
  match data !! "oauth_problem" with
  | Some problem =>
      if bool_decide (problem = "user_refused")
      then Raise (AuthCanceled (Some (PStr "User refused the access")))
      else Raise (AuthUnknownError (Some (PStr ("Error was " +:+ problem))))
  | None => Ok tt
  end.

Definition oauth_auth (self : backend) (data : qs) (token : option qs)
    : oauth1_signature :=
  let '(key, secret) := get_key_and_secret self in
  let oauth_verifier := data !! "oauth_verifier" in
  let token : qs := default ∅ token in
  {| client_key := key;
     client_secret := secret;
     resource_owner_key := token !! "oauth_token";
     resource_owner_secret := token !! "oauth_token_secret";
     callback_uri := redirect_uri self;
     verifier := oauth_verifier |}.

Definition access_token (self : backend) (data : qs) (token : qs)
    : result qs :=
  get_querystring self
    {| req_url := ACCESS_TOKEN_URL self;
       req_method := ACCESS_TOKEN_METHOD self;
       req_data := ∅;
       req_headers := ∅;
       req_auth := Some (oauth_auth self data (Some token)) |}.

Definition do_auth (self : backend) (access_token : qs) : result pyval :=
  result_bind (user_data self (PDict access_token) None) (fun data =>
  let data :=
    match data with
    | Some d =>
        match d !! "access_token" with
        | None => Some (<["access_token" := PDict access_token]> d)
        | Some _ => Some d
        end
    | None => None
    end in
  authenticate self data).

(** [set(tokens)]: a dict is not hashable. *)
Fixpoint py_set (tokens : list token) : result (gset string) :=
  match tokens with
  | [] => Ok ∅
  | TokStr s :: rest => result_bind (py_set rest) (fun S => Ok ({[ s ]} ∪ S))
  | TokDict _ :: _ => Raise TypeError
  end.

(** [list(set(tokens) - set([orig]))]. The order in which a set is listed
    is not specified; statements about the list are up to permutation. *)
Definition remove_token (tokens : list token) (orig : token)
    : result (list token) :=
  result_bind (py_set tokens) (fun all =>
  result_bind (py_set [orig]) (fun one =>
  Ok (TokStr <$> elements (all ∖ one)))).

(** The [for ... else] loop of [auth_complete]: [rest] is what is left to
    visit of [unauthed_tokens]. *)
Fixpoint find_token (self : backend) (name data_token : string)
    (unauthed_tokens rest : list token) : M qs :=
  match rest with
  | [] => raise (AuthTokenError "Incorrect tokens")
  | orig_unauthed_token :: rest' =>
      let unauthed_token :=
        match orig_unauthed_token with
        | TokDict d => d
        | TokStr s => parse_qs s
        end in
      if bool_decide (unauthed_token !! OAUTH_TOKEN_PARAMETER_NAME self
                      = Some data_token)
      then
        let! remaining :=
          lift (remove_token unauthed_tokens orig_unauthed_token) in
        do! session_set name (PTokens remaining) in
        ret unauthed_token
      else find_token self name data_token unauthed_tokens rest'
  end.

(** [except HTTPError as err] around the access-token request *)
Definition cancel_on_400 {A} (r : result A) : result A :=
  match r with
  | Raise (HTTPError status_code) =>
      if Z.eqb status_code 400 then Raise (AuthCanceled None)
      else Raise (HTTPError status_code)
  | _ => r
  end.

(** [self.data] is the mapping of request parameters. The slot is only
    written by [auth_url] and by this function, always with a list, and
    the embedding covers the slots that are absent, false or hold a list.
    A true slot of another type is outside the store's type: Python would
    iterate a string by characters and a dict by keys, which is not
    modelled, and the embedding marks such a slot by [TypeError]. Every
    statement about the loop assumes a list in the slot. *)
Definition auth_complete (self : backend) (data : qs) : M pyval :=
  do! lift (process_error data) in
  let name := name self +:+ "unauthorized_token_name" in
  let! unauthed_tokens := session_get_default name (PTokens []) in
  if negb (truthy unauthed_tokens)
  then raise (AuthTokenError "Missing unauthorized token")
  else
    let token_param_name := OAUTH_TOKEN_PARAMETER_NAME self in
    let data_token := default "no-token" (data !! token_param_name) in
    match unauthed_tokens with
    | PTokens l =>
        let! token := find_token self name data_token l l in
        let! access_token :=
          lift (cancel_on_400 (access_token self data token)) in
        lift (do_auth self access_token)
    | _ => raise TypeError
    end.

End Imports.
End BaseOAuth1.

(** ** class BaseOAuth2 *)

Module BaseOAuth2.
Section Imports.

(** [social.p3.urlencode], [social.p3.unquote] and
    [social.utils.url_add_parameters] *)
Variable urlencode : dict -> string.
Variable unquote : string -> string.
Variable url_add_parameters : string -> dict -> string.

(** [self.data.get(k)] on the request parameters *)
Definition data_get (data : qs) (k : string) : pyval :=
  match data !! k with
  | Some s => PStr s
  | None => PNone
  end.

Definition state_token (self : backend) : M string :=
  fun w =>
    let '(token, sd) := random_string self 32 (seed w) in
    (Ok token, World (session w) sd).

Definition get_redirect_uri (self : backend) (state : pyval) : string :=
  let uri := redirect_uri self in
  if REDIRECT_STATE self && truthy state
  then url_add_parameters uri {[ "redirect_state" := state ]}
  else uri.

Definition auth_params (self : backend) (state : pyval) : dict :=
  let '(client_id, client_secret) := get_key_and_secret self in
  let params : dict :=
    <["redirect_uri" := PStr (get_redirect_uri self state)]>
      {[ "client_id" := PStr client_id ]} in
  let params :=
    if STATE_PARAMETER self && truthy state
    then <["state" := state]> params else params in
  let params :=
    if truthy (RESPONSE_TYPE self)
    then <["response_type" := RESPONSE_TYPE self]> params else params in
  params.

Definition auth_url (self : backend) : M string :=
  let! state :=
    (if STATE_PARAMETER self || REDIRECT_STATE self then
       let name := name self +:+ "_state" in
       let! state := session_get name in
       if bool_decide (state = PNone) then
         let! state := state_token self in
         do! session_set name (PStr state) in
         ret (PStr state)
       else ret state
     else ret PNone) in
  let params := auth_params self state in
  let params := dict_update params (OAuthAuth.get_scope_argument self) in
  let params := dict_update params (auth_extra_arguments self) in
  let params := urlencode params in
  let params := if negb (REDIRECT_STATE self) then unquote params else params in
  ret (AUTHORIZATION_URL self +:+ "?" +:+ params).

Definition validate_state (self : backend) (data : qs) : M pyval :=
  if negb (STATE_PARAMETER self) && negb (REDIRECT_STATE self) then ret PNone
  else
    let! state := session_get (name self +:+ "_state") in
    if truthy state then
      let request_state :=
        py_or (data_get data "state") (data_get data "redirect_state") in
      if negb (truthy request_state) then raise (AuthMissingParameter "state")
      else if negb (truthy state) then raise (AuthStateMissing "state")
      else if negb (py_eq request_state state) then raise AuthStateForbidden
      else ret state
    else ret state.

Definition auth_complete_params (self : backend) (data : qs) (state : pyval)
    : dict :=
  let '(client_id, client_secret) := get_key_and_secret self in
  <["grant_type" := PStr "authorization_code"]>
  (<["code" := default (PStr "") (PStr <$> data !! "code")]>
  (<["client_id" := PStr client_id]>
  (<["client_secret" := PStr client_secret]>
  {[ "redirect_uri" := PStr (get_redirect_uri self state) ]}))).

Definition auth_headers : qs :=
  <["Content-Type" := "application/x-www-form-urlencoded"]>
  {[ "Accept" := "application/json" ]}.

Definition request_access_token (self : backend) (req : request)
    : result dict :=
  get_json self req.

Definition process_error (data : dict) : result unit :=
  if truthy (dict_get data "error") then
    if py_eq (dict_get data "error") (PStr "denied")
       || py_eq (dict_get data "error") (PStr "access_denied")
    then Raise (AuthCanceled
                  (Some (dict_get_default data "error_description" (PStr ""))))
    else Raise (AuthFailed
                  (Some (py_or (dict_get data "error_description")
                               (dict_get data "error"))))
  else
    match data !! "denied" with
    | Some denied => Raise (AuthCanceled (Some denied))
    | None => Ok tt
    end.

Definition do_auth (self : backend) (access_token : pyval)
    (response : option dict) : result pyval :=
  result_bind (user_data self access_token response) (fun data =>
  let response : dict :=
    match response with
    | Some r => if bool_decide (r = ∅) then ∅ else r
    | None => ∅
    end in
  let response :=
    dict_update response
      (match data with
       | Some d => if bool_decide (d = ∅) then ∅ else d
       | None => ∅
       end) in
  authenticate self (Some response)).

(** The two [except] clauses around the token request: they see whatever
    is raised inside the [try], by [validate_state] or by the request. *)
Definition except_exchange {A} (c : M A) : M A :=
  fun w =>
    match c w with
    | (Raise (HTTPError status_code), w') =>
        if Z.eqb status_code 400 then (Raise (AuthCanceled None), w')
        else (Raise (HTTPError status_code), w')
    | (Raise (KeyError _), w') => (Raise (AuthUnknownError None), w')
    | r => r
    end.

Definition auth_complete (self : backend) (data : qs) : M pyval :=
  do! lift (process_error (params_dict data)) in
  let! response :=
    except_exchange
      (let! state := validate_state self data in
       lift (request_access_token self
               {| req_url := ACCESS_TOKEN_URL self;
                  req_method := ACCESS_TOKEN_METHOD self;
                  req_data := auth_complete_params self data state;
                  req_headers := auth_headers;
                  req_auth := None |})) in
  do! lift (process_error response) in
  match response !! "access_token" with
  | Some access_token => lift (do_auth self access_token (Some response))
  | None => raise (KeyError "access_token")
  end.

End Imports.
End BaseOAuth2.

(** ** Backends and stores of the examples *)

(** A backend with the defaults of the three classes. The transport answers
    are arguments; the default [user_data] hook returns an empty mapping and
    the authenticator returns the response's [access_token]. *)
Definition demo_backend (extra : option (list entry))
    (state_parameter redirect_state : bool)
    (querystring : result qs) (json : result dict)
    (hook : option dict) : backend :=
  {| name := "demo";
     redirect_uri := "https://app/cb";
     SCOPE_PARAMETER_NAME := "scope";
     DEFAULT_SCOPE := None;
     SCOPE_SEPARATOR := " ";
     EXTRA_DATA := extra;
     ACCESS_TOKEN_METHOD := "GET";
     setting_EXTRA_DATA := None;
     setting_SCOPE := None;
     OAUTH_TOKEN_PARAMETER_NAME := "oauth_token";
     AUTHORIZATION_URL := "https://p/auth";
     ACCESS_TOKEN_URL := "https://p/token";
     RESPONSE_TYPE := PStr "code";
     REDIRECT_STATE := redirect_state;
     STATE_PARAMETER := state_parameter;
     get_key_and_secret := ("id", "secret");
     auth_extra_arguments := ∅;
     get_querystring := fun _ => querystring;
     get_json := fun _ => json;
     user_data := fun _ _ => Ok hook;
     random_string := random_string_plain;
     authenticate := fun response =>
       Ok (default PNone (response ≫= (.!! "access_token")));
  |}.

(** The OAuth1 backend of the examples: the access-token request succeeds. *)
Definition demo1 : backend :=
  demo_backend None true true
    (Ok (<["oauth_token" := "at"]> {[ "oauth_token_secret" := "ats" ]}))
    (Ok ∅) (Some ∅).

(** A session holding the pending-token list [l] of [demo1]. *)
Definition pending_world (l : list token) : world :=
  World {[ "demounauthorized_token_name" := PTokens l ]} 0.

(** A session holding [state] in the CSRF slot of the demo backend. *)
Definition state_world (state : pyval) : world :=
  World {[ "demo_state" := state ]} 0.

Definition empty_world : world := World ∅ 0.

(** ** Vocabulary of the statements *)

(** The arity test of [extra_data], on an entry as configured. *)
Definition arity_ok (e : entry) : bool :=
  let size := OAuthAuth.len (OAuthAuth.as_sequence e) in
  Nat.leb 1 size && Nat.leb size 3.

(** The alias an entry writes to, when its arity is accepted. *)
Definition alias_of (e : entry) : option string :=
  match OAuthAuth.unpack (OAuthAuth.as_sequence e) with
  | Some (_, alias, _) => Some alias
  | None => None
  end.

Definition aliases (l : list entry) : list string := omap alias_of l.

(** The seed of [extra_data]: [{'access_token': response.get('access_token', '')}] *)
Definition seed_data (response : dict) : dict :=
  {[ "access_token" := dict_get_default response "access_token" (PStr "") ]}.

(** A provider with a fallback alias: [user] is taken from [username], or
    from [screen_name] when that one is not empty. *)
Definition fallback_spec : list entry :=
  [ESeq2 "username" "user"; ESeq3 "screen_name" "user" (PBool true)].

Definition email_spec : list entry :=
  [ESeq3 "email" "email_addr" (PBool true)].

Definition demo_extra (extra : list entry) : backend :=
  demo_backend (Some extra) true true (Ok ∅) (Ok ∅) (Some ∅).

(** The OAuth2 backends of the examples: both CSRF toggles on (the class
    defaults) or off, and a token endpoint that answers [json]. *)
Definition demo2 (json : result dict) (hook : option dict) : backend :=
  demo_backend None true true (Ok ∅) json hook.

Definition demo2_csrf : backend :=
  demo2 (Ok {[ "access_token" := PStr "tok" ]}) (Some ∅).

Definition demo2_no_csrf : backend :=
  demo_backend None false false (Ok ∅) (Ok {[ "access_token" := PStr "tok" ]})
    (Some ∅).

Definition token_response : dict :=
  <["access_token" := PStr "tok"]> {[ "id" := PStr "from-token-endpoint" ]}.

(** The slot of the CSRF state of a backend. *)
Definition state_key (self : backend) : string := name self +:+ "_state".

(** The value a callback supplies for the state: its [state] parameter, or
    its [redirect_state] parameter when it has no [state] parameter or an
    empty one. *)
Definition supplies (data : qs) (v : string) : Prop :=
  data !! "state" = Some v
  \/ ((data !! "state" = None \/ data !! "state" = Some "")
      /\ data !! "redirect_state" = Some v).

(** The url [BaseOAuth2.auth_url] returns once the state is known: the
    parameters are built, encoded, and decoded again when the redirect
    state is off. *)
Definition url_for_state (urlencode : dict -> string)
    (unquote : string -> string)
    (url_add_parameters : string -> dict -> string)
    (self : backend) (state : pyval) : string :=
  let params := BaseOAuth2.auth_params url_add_parameters self state in
  let params := dict_update params (OAuthAuth.get_scope_argument self) in
  let params := dict_update params (auth_extra_arguments self) in
  let params := urlencode params in
  let params := if negb (REDIRECT_STATE self) then unquote params else params in
  AUTHORIZATION_URL self +:+ "?" +:+ params.

(** The request [auth_complete] hands to [request_access_token]. *)
Definition token_request (url_add_parameters : string -> dict -> string)
    (self : backend) (data : qs) (state : pyval) : request :=
  {| req_url := ACCESS_TOKEN_URL self;
     req_method := ACCESS_TOKEN_METHOD self;
     req_data :=
       BaseOAuth2.auth_complete_params url_add_parameters self data state;
     req_headers := BaseOAuth2.auth_headers;
     req_auth := None |}.

(** A transport error that none of the two [except] clauses of
    [BaseOAuth2.auth_complete] rewrites. *)
Definition passes_through (e : exn) : Prop :=
  match e with
  | HTTPError status_code => status_code ≠ 400
  | KeyError _ => False
  | _ => True
  end.

(** A callback of the examples: an authorization code and the state. *)
Definition code_callback : qs := <["code" := "c"]> {[ "state" := "abc" ]}.

(** The user-data hook of the examples shares the key [id] with the token
    response. *)
Definition hook_data : dict :=
  <["id" := PStr "from-user-data"]> {[ "email" := PStr "a@b.com" ]}.

(** The slot of the pending-token list of a backend, and the list read
    from it by [session_get(name, [])]. *)
Definition tokens_key (self : backend) : string :=
  name self +:+ "unauthorized_token_name".

Definition pending (self : backend) (w : world) : pyval :=
  dict_get_default (session w) (tokens_key self) (PTokens []).

(** The token id of a pending entry, read as the loop of [auth_complete]
    reads it, and the token id of a callback. *)
Definition token_id (parse_qs : string -> qs) (self : backend) (t : token)
    : option string :=
  match t with
  | TokDict d => d !! OAUTH_TOKEN_PARAMETER_NAME self
  | TokStr s => parse_qs s !! OAUTH_TOKEN_PARAMETER_NAME self
  end.

Definition data_token (self : backend) (data : qs) : string :=
  default "no-token" (data !! OAUTH_TOKEN_PARAMETER_NAME self).

(** What [BaseOAuth1.auth_complete] returns once the entry [s] is matched:
    the access-token request, then [do_auth]. *)
Definition exchange_and_finish (parse_qs : string -> qs) (self : backend)
    (data : qs) (s : string) : result pyval :=
  result_bind
    (BaseOAuth1.cancel_on_400 (BaseOAuth1.access_token self data (parse_qs s)))
    (BaseOAuth1.do_auth self).

(** Pending entries of the examples. *)
Definition token_a : string := "oauth_token=a&oauth_token_secret=sa".
Definition token_a2 : string := "oauth_token=a&oauth_token_secret=other".
Definition token_b : string := "oauth_token=b&oauth_token_secret=sb".
Definition token_c : string := "oauth_token=c&oauth_token_secret=sc".

(** ** The remaining methods: token issuance, refresh and revocation *)

(** What [self.request] returns: the status, the raw body, and the body
    read as JSON. *)
Record response : Type := Response {
  resp_status_code : Z;
  resp_content : string;
  resp_json : result dict;
}.

(** The arguments of a call to [self.request]. *)
Record http_request : Type := HttpRequest {
  http_url : string;
  http_method : string;
  http_params : dict;
  http_data : option string;
  http_headers : qs;
  http_auth : option oauth1_signature;
}.

(** The class attributes and collaborators that the issuance, refresh and
    revocation methods read besides those of [backend]: the remaining
    urls and methods of [BaseOAuth1] and [BaseOAuth2],
    [request_token_extra_arguments] and [request] of [BaseAuth]. *)
Record endpoints : Type := Endpoints {
  REQUEST_TOKEN_URL : string;
  REQUEST_TOKEN_METHOD : string;
  REDIRECT_URI_PARAMETER_NAME : string;
  REFRESH_TOKEN_URL : option string;
  REFRESH_TOKEN_METHOD : string;
  REVOKE_TOKEN_URL : option string;
  REVOKE_TOKEN_METHOD : string;
  request_token_extra_arguments : dict;
  self_request : http_request -> result response;
}.

(** [if url:] on an optional url *)
Definition url_set (url : option string) : bool :=
  match url with
  | Some u => negb (bool_decide (u = ""))
  | None => false
  end.

(** [url or other] on an optional url *)
Definition url_or (url : option string) (other : string) : string :=
  match url with
  | Some u => if bool_decide (u = "") then other else u
  | None => other
  end.

Module BaseOAuth1_issue.
Section Imports.

Variable parse_qs : string -> qs.
Variable urlencode : dict -> string.

Definition unauthorized_token (self : backend) (ext : endpoints)
    : result string :=
  let params := request_token_extra_arguments ext in
  let params := dict_update params (OAuthAuth.get_scope_argument self) in
  let '(key, secret) := get_key_and_secret self in
  result_bind
    (self_request ext
       {| http_url := REQUEST_TOKEN_URL ext;
          http_method := REQUEST_TOKEN_METHOD ext;
          http_params := params;
          http_data := None;
          http_headers := ∅;
          http_auth :=
            Some {| client_key := key;
                    client_secret := secret;
                    resource_owner_key := None;
                    resource_owner_secret := None;
                    callback_uri := redirect_uri self;
                    verifier := None |} |})
    (fun response => Ok (resp_content response)).

Definition oauth_authorization_request (self : backend) (ext : endpoints)
    (token : token) : string :=
  let token :=
    match token with
    | TokDict d => d
    | TokStr s => parse_qs s
    end in
  let params : dict :=
    if bool_decide (auth_extra_arguments self = ∅) then ∅
    else auth_extra_arguments self in
  let params := dict_update params (OAuthAuth.get_scope_argument self) in
  let params :=
    <[OAUTH_TOKEN_PARAMETER_NAME self :=
        match token !! OAUTH_TOKEN_PARAMETER_NAME self with
        | Some id => PStr id
        | None => PNone
        end]> params in
  let params :=
    <[REDIRECT_URI_PARAMETER_NAME ext := PStr (redirect_uri self)]> params in
  AUTHORIZATION_URL self +:+ "?" +:+ urlencode params.

(** [session_get(name, []) + [token]] raises [TypeError] unless the slot
    holds a list. *)
Definition auth_url (self : backend) (ext : endpoints) : M string :=
  let! token := lift (unauthorized_token self ext) in
  let name := name self +:+ "unauthorized_token_name" in
  let! stored := session_get_default name (PTokens []) in
  match stored with
  | PTokens l =>
      let tokens := (l ++ [TokStr token])%list in
      do! session_set name (PTokens tokens) in
      ret (oauth_authorization_request self ext (TokStr token))
  | _ => raise TypeError
  end.

Definition oauth_request (self : backend) (ext : endpoints) (data : qs)
    (token : option qs) (url : string) (params : dict) (method : string)
    : result response :=
  self_request ext
    {| http_url := url;
       http_method := method;
       http_params := params;
       http_data := None;
       http_headers := ∅;
       http_auth := Some (BaseOAuth1.oauth_auth self data token) |}.

End Imports.
End BaseOAuth1_issue.

Module BaseOAuth2_tokens.
Section Imports.

Variable urlencode : dict -> string.

Definition refresh_token_params (self : backend) (token : pyval) : dict :=
  let '(client_id, client_secret) := get_key_and_secret self in
  <["refresh_token" := token]>
  (<["grant_type" := PStr "refresh_token"]>
  (<["client_id" := PStr client_id]>
  {[ "client_secret" := PStr client_secret ]})).

Definition process_refresh_token_response (r : response) : result dict :=
  resp_json r.

Definition refresh_token (self : backend) (ext : endpoints) (token : pyval)
    : result dict :=
  let params := refresh_token_params self token in
  result_bind
    (self_request ext
       {| http_url := url_or (REFRESH_TOKEN_URL ext) (ACCESS_TOKEN_URL self);
          http_method := REFRESH_TOKEN_METHOD ext;
          http_params := params;
          http_data := None;
          http_headers := BaseOAuth2.auth_headers;
          http_auth := None |})
    process_refresh_token_response.






End Imports.
End BaseOAuth2_tokens.

(** ** Vocabulary and examples for the remaining properties *)

(** The response field an entry reads, when its arity is accepted. *)
Definition source_of (e : entry) : option string :=
  match OAuthAuth.unpack (OAuthAuth.as_sequence e) with
  | Some (name, _, _) => Some name
  | None => None
  end.

Definition sources (l : list entry) : list string := omap source_of l.

(** The entries of a slot value: those of a list, none otherwise. *)
Definition tokens_of (v : pyval) : list token :=
  match v with
  | PTokens l => l
  | _ => []
  end.

(** Endpoints whose transport gives the same answer to every request. *)
Definition demo_endpoints (refresh revoke : option string)
    (revoke_method : string) (answer : result response) : endpoints :=
  {| REQUEST_TOKEN_URL := "https://p/request_token";
     REQUEST_TOKEN_METHOD := "GET";
     REDIRECT_URI_PARAMETER_NAME := "redirect_uri";
     REFRESH_TOKEN_URL := refresh;
     REFRESH_TOKEN_METHOD := "POST";
     REVOKE_TOKEN_URL := revoke;
     REVOKE_TOKEN_METHOD := revoke_method;
     request_token_extra_arguments := ∅;
     self_request := fun _ => answer;
  |}.

(** A backend of the examples with scopes. *)
Definition demo_scoped (dflt configured : option (list string)) : backend :=
  {| name := "demo";
     redirect_uri := "https://app/cb";
     SCOPE_PARAMETER_NAME := "scope";
     DEFAULT_SCOPE := dflt;
     SCOPE_SEPARATOR := " ";
     EXTRA_DATA := None;
     ACCESS_TOKEN_METHOD := "GET";
     setting_EXTRA_DATA := None;
     setting_SCOPE := configured;
     OAUTH_TOKEN_PARAMETER_NAME := "oauth_token";
     AUTHORIZATION_URL := "https://p/auth";
     ACCESS_TOKEN_URL := "https://p/token";
     RESPONSE_TYPE := PStr "code";
     REDIRECT_STATE := true;
     STATE_PARAMETER := true;
     get_key_and_secret := ("id", "secret");
     auth_extra_arguments := ∅;
     get_querystring := fun _ => Ok ∅;
     get_json := fun _ => Ok ∅;
     user_data := fun _ _ => Ok (Some ∅);
     random_string := random_string_plain;
     authenticate := fun _ => Ok PNone;
  |}.

(** An OAuth1 backend whose access-token endpoint answers HTTP 400. *)
Definition demo1_refused : backend :=
  demo_backend None true true (Raise (HTTPError 400)) (Ok ∅) (Some ∅).

(** Endpoints whose request-token endpoint answers with [token_c]. *)
Definition demo_issue : endpoints :=
  demo_endpoints None None "POST" (Ok (Response 200 token_c (Ok ∅))).

(** A token endpoint that answers 200 with an error in the body, next to
    an access token. *)
Definition error_response : dict :=
  <["error" := PStr "invalid_grant"]> {[ "access_token" := PStr "tok" ]}.

(** Endpoints without refresh url whose transport answers the
    access-token url of the demo backend and refuses any other. *)
Definition refresh_endpoints : endpoints :=
  {| REQUEST_TOKEN_URL := "https://p/request_token";
     REQUEST_TOKEN_METHOD := "GET";
     REDIRECT_URI_PARAMETER_NAME := "redirect_uri";
     REFRESH_TOKEN_URL := None;
     REFRESH_TOKEN_METHOD := "POST";
     REVOKE_TOKEN_URL := None;
     REVOKE_TOKEN_METHOD := "POST";
     request_token_extra_arguments := ∅;
     self_request := fun req =>
       if bool_decide (http_url req = "https://p/token")
       then Ok (Response 200 "" (Ok {[ "access_token" := PStr "new" ]}))
       else Raise (HTTPError 404);
  |}.

(** * Properties *)

(** ** OAuthAuth.extra_data *)

Section ExtraData.
Variable response : dict.

Lemma entry_malformed_skipped (data : dict) (e : entry) :
  arity_ok e = false -> OAuthAuth.extra_data_entry response data e = data.
Proof.
  unfold arity_ok, OAuthAuth.extra_data_entry. cbv zeta.
  intros ->. reflexivity.
Qed.

Lemma entry_other_key (data : dict) (e : entry) (k : string) :
  alias_of e ≠ Some k ->
  OAuthAuth.extra_data_entry response data e !! k = data !! k.
Proof.
  unfold alias_of, OAuthAuth.extra_data_entry. cbv zeta.
  intros Hk.
  destruct (_ && _); [|done].
  destruct (OAuthAuth.unpack _) as [[[n a] d]|]; [|done].
  destruct (_ && _); [done|].
  apply lookup_insert_ne. congruence.
Qed.

Lemma entries_other_key (l : list entry) (data : dict) (k : string) :
  k ∉ aliases l ->
  foldl (OAuthAuth.extra_data_entry response) data l !! k = data !! k.
Proof.
  revert data. induction l as [|e l IH]; intros data Hk; [done|].
  cbn [foldl]. rewrite IH.
  - apply entry_other_key. intros He. apply Hk.
    apply list_elem_of_omap. exists e. split; [left | exact He].
  - intros Hin. apply Hk.
    apply list_elem_of_omap in Hin as (e' & He' & Ha).
    apply list_elem_of_omap. exists e'. split; [by right | exact Ha].
Qed.

Lemma entry_keeps_key (data : dict) (e : entry) (k : string) :
  is_Some (data !! k) ->
  is_Some (OAuthAuth.extra_data_entry response data e !! k).
Proof.
  intros Hk. unfold OAuthAuth.extra_data_entry. cbv zeta.
  destruct (_ && _); [|done].
  destruct (OAuthAuth.unpack _) as [[[n a] d]|]; [|done].
  destruct (_ && _); [done|].
  destruct (decide (a = k)) as [->|Hne].
  - rewrite lookup_insert_eq. eauto.
  - by rewrite lookup_insert_ne.
Qed.

Lemma entries_keep_key (l : list entry) (data : dict) (k : string) :
  is_Some (data !! k) ->
  is_Some (foldl (OAuthAuth.extra_data_entry response) data l !! k).
Proof.
  revert data. induction l as [|e l IH]; intros data Hk; [done|].
  cbn [foldl]. apply IH, entry_keeps_key, Hk.
Qed.

(** What one well-formed entry does to the accumulated mapping. *)
Lemma entry_unpacked (data : dict) (e : entry) (n a : string) (d : pyval) :
  OAuthAuth.unpack (OAuthAuth.as_sequence e) = Some (n, a, d) ->
  OAuthAuth.extra_data_entry response data e =
    if truthy d && negb (truthy (dict_get response n)) then data
    else <[a := dict_get response n]> data.
Proof.
  unfold OAuthAuth.extra_data_entry. cbv zeta. intros Hu. rewrite Hu.
  destruct e; simpl in *; try discriminate; reflexivity.
Qed.

End ExtraData.

(** C4 (as amended). [extra_data] has no rejection path: an entry whose
    arity is not 1, 2 or 3 is passed over by the guard
    [size >= 1 and size <= 3], so the result is the one computed from the
    entries of accepted arity alone, in their order. *)
Theorem extra_data_skips_malformed_arity (self : backend) (response : dict) :
  OAuthAuth.extra_data self response =
    foldl (OAuthAuth.extra_data_entry response) (seed_data response)
          (List.filter arity_ok (OAuthAuth.names self)).
Proof.
  unfold OAuthAuth.extra_data. cbv zeta. fold (seed_data response).
  generalize (seed_data response).
  induction (OAuthAuth.names self) as [|e l IH]; intros data; [done|].
  cbn [foldl List.filter].
  destruct (arity_ok e) eqn:He.
  - cbn [foldl]. apply IH.
  - rewrite (entry_malformed_skipped response data e He). apply IH.
Qed.

(** C4 (counterexample). An empty tuple and a tuple of four fields in
    [EXTRA_DATA] are neither rejected nor reported: [extra_data] returns
    the mapping built from the remaining entry. *)
Lemma malformed_entries_silently_skipped :
  arity_ok ESeq0 = false
  /\ arity_ok (ESeqLong (PStr "a") (PStr "b") (PBool false) (PInt 1) []) = false
  /\ OAuthAuth.extra_data
       (demo_extra [ESeq0; ESeq1 "id";
                    ESeqLong (PStr "a") (PStr "b") (PBool false) (PInt 1) []])
       (<["id" := PInt 7]> {[ "a" := PStr "x" ]})
     = <["id" := PInt 7]> {[ "access_token" := PStr "" ]}.
Proof. repeat split; vm_compute; reflexivity. Qed.

(** C7 (as amended). The result always has the key [access_token], holding
    the response's [access_token] (the empty string when absent) unless an
    entry writes that alias. An entry of accepted arity whose discard flag
    is set and whose source value is false (absent, [None], empty, zero)
    adds nothing: the result is the one of the specification without that
    entry, so its alias is absent unless it is [access_token] or another
    entry writes it. Any other entry stores the source value ([None] when
    absent) under its alias, where it stays unless a later entry writes the
    same alias. *)
Theorem extra_data_result (self : backend) (response : dict) :
  let result := OAuthAuth.extra_data self response in
  is_Some (result !! "access_token")
  /\ ("access_token" ∉ aliases (OAuthAuth.names self) ->
      result !! "access_token"
      = Some (dict_get_default response "access_token" (PStr "")))
  /\ forall (l1 l2 : list entry) (e : entry) (name alias : string)
            (discard : pyval),
      OAuthAuth.names self = (l1 ++ e :: l2)%list ->
      OAuthAuth.unpack (OAuthAuth.as_sequence e) = Some (name, alias, discard) ->
      let value := dict_get response name in
      (truthy discard = true -> truthy value = false ->
         result = foldl (OAuthAuth.extra_data_entry response)
                        (seed_data response) (l1 ++ l2)%list
         /\ (alias ≠ "access_token" -> alias ∉ aliases (l1 ++ l2)%list ->
             result !! alias = None))
      /\ (truthy discard = false \/ truthy value = true ->
          alias ∉ aliases l2 -> result !! alias = Some value).
Proof.
  cbv zeta. unfold OAuthAuth.extra_data. cbv zeta. fold (seed_data response).
  split; [|split].
  - apply entries_keep_key. unfold seed_data.
    rewrite lookup_singleton_eq. eauto.
  - intros Hno. rewrite entries_other_key by exact Hno.
    unfold seed_data. apply lookup_singleton_eq.
  - intros l1 l2 e n a d -> Hu. rewrite !foldl_app. cbn [foldl].
    rewrite (entry_unpacked response _ e n a d Hu). split.
    + intros -> ->. cbn [andb negb]. split; [reflexivity|].
      intros Hne Hno. rewrite <- foldl_app.
      rewrite entries_other_key by exact Hno.
      unfold seed_data. apply lookup_singleton_ne. congruence.
    + intros Hcase Hno. rewrite entries_other_key by exact Hno.
      destruct Hcase as [-> | ->]; cbn [andb negb];
        rewrite ?andb_false_r; apply lookup_insert_eq.
Qed.

(** C7 (counterexample). With a fallback alias, the second entry has its
    discard flag set and its source field is absent from the response, yet
    its alias is in the result, written by the first entry. *)
Lemma discarded_alias_still_present :
  OAuthAuth.names (demo_extra fallback_spec)
    = [ESeq2 "username" "user"; ESeq3 "screen_name" "user" (PBool true)]
  /\ ({[ "username" := PStr "ann" ]} : dict) !! "screen_name" = None
  /\ OAuthAuth.extra_data (demo_extra fallback_spec)
       {[ "username" := PStr "ann" ]} !! "user" = Some (PStr "ann").
Proof. repeat split; vm_compute; reflexivity. Qed.

(** The example of the specification: with
    [("email", "email_addr", True)], an empty [email] leaves the alias out
    and a non-empty one is stored, next to [access_token]. *)
Lemma extra_data_result_witness :
  OAuthAuth.extra_data (demo_extra email_spec) {[ "email" := PStr "" ]}
    !! "email_addr" = None
  /\ OAuthAuth.extra_data (demo_extra email_spec) {[ "email" := PStr "a@b.com" ]}
       !! "email_addr" = Some (PStr "a@b.com")
  /\ is_Some (OAuthAuth.extra_data (demo_extra email_spec)
                {[ "email" := PStr "a@b.com" ]} !! "access_token").
Proof.
  split; [|split].
  - destruct (extra_data_result (demo_extra email_spec) {[ "email" := PStr "" ]})
      as (_ & _ & H).
    destruct (H [] [] (ESeq3 "email" "email_addr" (PBool true))
                "email" "email_addr" (PBool true) eq_refl eq_refl) as [Hd _].
    destruct (Hd eq_refl eq_refl) as [_ Hnone].
    apply Hnone.
    + vm_compute. discriminate.
    + vm_compute. inversion 1.
  - destruct (extra_data_result (demo_extra email_spec)
                {[ "email" := PStr "a@b.com" ]}) as (_ & _ & H).
    destruct (H [] [] (ESeq3 "email" "email_addr" (PBool true))
                "email" "email_addr" (PBool true) eq_refl eq_refl) as [_ Hs].
    apply Hs.
    + right. vm_compute. reflexivity.
    + vm_compute. inversion 1.
  - exact (proj1 (extra_data_result (demo_extra email_spec)
                    {[ "email" := PStr "a@b.com" ]})).
Defined.

(** ** process_error *)

Lemma py_eq_str (v : pyval) (s : string) :
  py_eq v (PStr s) = bool_decide (v = PStr s).
Proof. destruct v; reflexivity. Qed.

(** C6. The error classification of both flows, for every input mapping.
    OAuth1: [oauth_problem] equal to [user_refused] is a cancellation, any
    other value an unknown error. OAuth2: a true [error] equal to [denied]
    or [access_denied] is a cancellation carrying [error_description] (the
    empty string when absent), any other true [error] is a failure, and a
    [denied] key without a true [error] is a cancellation. *)
Theorem process_error_mappings :
  (forall data : qs,
      data !! "oauth_problem" = Some "user_refused" ->
      BaseOAuth1.process_error data
      = Raise (AuthCanceled (Some (PStr "User refused the access"))))
  /\ (forall (data : qs) (problem : string),
      data !! "oauth_problem" = Some problem -> problem ≠ "user_refused" ->
      BaseOAuth1.process_error data
      = Raise (AuthUnknownError (Some (PStr ("Error was " +:+ problem)))))
  /\ (forall data : dict,
      data !! "error" = Some (PStr "denied")
      \/ data !! "error" = Some (PStr "access_denied") ->
      BaseOAuth2.process_error data
      = Raise (AuthCanceled
                 (Some (dict_get_default data "error_description" (PStr "")))))
  /\ (forall (data : dict) (e : pyval),
      data !! "error" = Some e -> truthy e = true ->
      e ≠ PStr "denied" -> e ≠ PStr "access_denied" ->
      BaseOAuth2.process_error data
      = Raise (AuthFailed
                 (Some (py_or (dict_get data "error_description") e))))
  /\ (forall (data : dict) (d : pyval),
      truthy (dict_get data "error") = false ->
      data !! "denied" = Some d ->
      BaseOAuth2.process_error data = Raise (AuthCanceled (Some d))).
Proof.
  repeat split.
  - intros data H. unfold BaseOAuth1.process_error. rewrite H. reflexivity.
  - intros data p H Hp. unfold BaseOAuth1.process_error. rewrite H.
    rewrite bool_decide_eq_false_2 by exact Hp. reflexivity.
  - intros data H. unfold BaseOAuth2.process_error, dict_get.
    destruct H as [H | H]; rewrite H; reflexivity.
  - intros data e H Ht Hd Ha. unfold BaseOAuth2.process_error, dict_get.
    rewrite H. cbn. rewrite Ht, !py_eq_str.
    rewrite !bool_decide_eq_false_2 by assumption. reflexivity.
  - intros data d He Hd. unfold BaseOAuth2.process_error.
    rewrite He, Hd. reflexivity.
Qed.

(** The five mappings listed by the specification. *)
Lemma process_error_mappings_witness :
  BaseOAuth1.process_error {[ "oauth_problem" := "user_refused" ]}
    = Raise (AuthCanceled (Some (PStr "User refused the access")))
  /\ BaseOAuth1.process_error {[ "oauth_problem" := "x" ]}
     = Raise (AuthUnknownError (Some (PStr "Error was x")))
  /\ BaseOAuth2.process_error {[ "error" := PStr "access_denied" ]}
     = Raise (AuthCanceled (Some (PStr "")))
  /\ BaseOAuth2.process_error {[ "error" := PStr "invalid_grant" ]}
     = Raise (AuthFailed (Some (PStr "invalid_grant")))
  /\ BaseOAuth2.process_error {[ "denied" := PStr "why" ]}
     = Raise (AuthCanceled (Some (PStr "why"))).
Proof.
  destruct process_error_mappings as (H1 & H2 & H3 & H4 & H5).
  split; [|split; [|split; [|split]]].
  - apply H1. reflexivity.
  - apply (H2 {[ "oauth_problem" := "x" ]} "x"); [reflexivity | discriminate].
  - rewrite (H3 {[ "error" := PStr "access_denied" ]});
      [reflexivity | right; reflexivity].
  - rewrite (H4 {[ "error" := PStr "invalid_grant" ]} (PStr "invalid_grant"));
      [reflexivity | reflexivity | reflexivity | discriminate | discriminate].
  - apply (H5 {[ "denied" := PStr "why" ]} (PStr "why")); reflexivity.
Defined.

(** ** BaseOAuth2.validate_state *)

Section ValidateState.
Variable self : backend.
Variable data : qs.
Variable w : world.

Lemma toggles_on :
  STATE_PARAMETER self || REDIRECT_STATE self = true ->
  negb (STATE_PARAMETER self) && negb (REDIRECT_STATE self) = false.
Proof. destruct (STATE_PARAMETER self), (REDIRECT_STATE self); done. Qed.

Lemma request_state_supplied (v : string) :
  supplies data v -> v ≠ "" ->
  py_or (BaseOAuth2.data_get data "state")
        (BaseOAuth2.data_get data "redirect_state") = PStr v.
Proof.
  unfold supplies, BaseOAuth2.data_get, py_or.
  intros [-> | [[-> | ->] ->]] Hv; cbn;
    try rewrite (bool_decide_eq_false_2 _ Hv); reflexivity.
Qed.

(** A stored state that is false is handed back without any check. *)
Lemma validate_state_falsy :
  STATE_PARAMETER self || REDIRECT_STATE self = true ->
  truthy (dict_get (session w) (state_key self)) = false ->
  BaseOAuth2.validate_state self data w
  = (Ok (dict_get (session w) (state_key self)), w).
Proof.
  intros Hon Hf. unfold BaseOAuth2.validate_state.
  rewrite (toggles_on Hon). unfold bind, session_get. fold (state_key self).
  rewrite Hf. reflexivity.
Qed.

(** A non-empty stored state that the callback supplies is returned. *)
Lemma validate_state_echo (s : string) :
  STATE_PARAMETER self || REDIRECT_STATE self = true ->
  session w !! state_key self = Some (PStr s) -> s ≠ "" ->
  supplies data s ->
  BaseOAuth2.validate_state self data w = (Ok (PStr s), w).
Proof.
  intros Hon Hslot Hs Hsup.
  assert (Hstate : dict_get (session w) (state_key self) = PStr s)
    by (unfold dict_get; rewrite Hslot; reflexivity).
  assert (Htrue : truthy (PStr s) = true)
    by (cbn; rewrite (bool_decide_eq_false_2 _ Hs); reflexivity).
  unfold BaseOAuth2.validate_state.
  rewrite (toggles_on Hon). unfold bind, session_get.
  fold (state_key self). rewrite Hstate, Htrue.
  rewrite (request_state_supplied s Hsup Hs), Htrue. cbn [negb].
  unfold py_eq. rewrite bool_decide_eq_true_2 by reflexivity. reflexivity.
Qed.

(** The branch that raises [AuthStateMissing] is never taken. *)
Lemma validate_state_never_missing (p : string) :
  fst (BaseOAuth2.validate_state self data w) ≠ Raise (AuthStateMissing p).
Proof.
  unfold BaseOAuth2.validate_state.
  destruct (negb _ && negb _); [discriminate|].
  unfold bind, session_get. fold (state_key self).
  destruct (truthy (dict_get (session w) (state_key self))) eqn:Ht;
    [|cbn; discriminate].
  destruct (negb (truthy (py_or _ _))); [discriminate|].
  cbn [negb]. destruct (negb (py_eq _ _)); discriminate.
Qed.

End ValidateState.

(** C5 (as amended). [validate_state] returns no state when both CSRF
    toggles are off. With a toggle on and a non-empty state in the slot
    (what [auth_url] stores), every callback falls in one of three cases.
    Its value is its [state] parameter, or its [redirect_state] parameter
    when [state] is missing or empty. When that value is the stored state,
    the state is returned; when it is non-empty and another value, the
    failure is [AuthStateForbidden]; when [state] and [redirect_state] are
    both missing or empty, the failure is [AuthMissingParameter]. The
    store is left as it was. *)
Theorem validate_state_cases (self : backend) (data : qs) (w : world) :
  (STATE_PARAMETER self = false -> REDIRECT_STATE self = false ->
   BaseOAuth2.validate_state self data w = (Ok PNone, w))
  /\ forall s : string,
      STATE_PARAMETER self || REDIRECT_STATE self = true ->
      session w !! state_key self = Some (PStr s) -> s ≠ "" ->
      (supplies data s ->
       BaseOAuth2.validate_state self data w = (Ok (PStr s), w))
      /\ (forall v : string, supplies data v -> v ≠ "" -> v ≠ s ->
          BaseOAuth2.validate_state self data w = (Raise AuthStateForbidden, w))
      /\ (data !! "state" = None \/ data !! "state" = Some "" ->
          data !! "redirect_state" = None
          \/ data !! "redirect_state" = Some "" ->
          BaseOAuth2.validate_state self data w
          = (Raise (AuthMissingParameter "state"), w)).
Proof.
  split.
  - intros Hs Hr. unfold BaseOAuth2.validate_state. rewrite Hs, Hr. reflexivity.
  - intros s Hon Hslot Hs.
    assert (Hstate : dict_get (session w) (state_key self) = PStr s)
      by (unfold dict_get; rewrite Hslot; reflexivity).
    assert (Htrue : truthy (PStr s) = true)
      by (cbn; rewrite (bool_decide_eq_false_2 _ Hs); reflexivity).
    unfold BaseOAuth2.validate_state. rewrite (toggles_on self Hon).
    unfold bind, session_get. fold (state_key self). rewrite Hstate, Htrue.
    repeat split.
    + intros Hsup. rewrite (request_state_supplied data s Hsup Hs), Htrue.
      cbn [negb]. unfold py_eq. rewrite bool_decide_eq_true_2 by reflexivity.
      reflexivity.
    + intros v Hsup Hv Hne. rewrite (request_state_supplied data v Hsup Hv).
      cbn [truthy]. rewrite (bool_decide_eq_false_2 _ Hv). cbn [negb].
      unfold py_eq. rewrite bool_decide_eq_false_2 by congruence.
      reflexivity.
    + intros H1 H2. unfold BaseOAuth2.data_get.
      destruct H1 as [-> | ->], H2 as [-> | ->]; reflexivity.
Qed.

(** C5 (counterexample). A state is stored and the callback supplies a
    state parameter with a different value, the empty string: the failure
    is [AuthMissingParameter], not [AuthStateForbidden], although the
    callback does not lack the parameter. The empty value is taken for a
    missing one by the guard [if not request_state]. *)
Lemma empty_callback_state_is_missing_not_forbidden :
  session (state_world (PStr "abc")) !! state_key demo2_csrf
    = Some (PStr "abc")
  /\ ({[ "state" := "" ]} : qs) !! "state" = Some ""
  /\ "" ≠ "abc"
  /\ BaseOAuth2.validate_state demo2_csrf {[ "state" := "" ]}
       (state_world (PStr "abc"))
     = (Raise (AuthMissingParameter "state"), state_world (PStr "abc"))
  /\ fst (BaseOAuth2.validate_state demo2_csrf {[ "state" := "" ]}
            (state_world (PStr "abc")))
     ≠ Raise AuthStateForbidden.
Proof.
  split; [|split; [|split; [|split]]].
  - vm_compute. reflexivity.
  - vm_compute. reflexivity.
  - discriminate.
  - vm_compute. reflexivity.
  - vm_compute. discriminate.
Qed.

(** The cases on the demo backends. *)
Lemma validate_state_cases_witness :
  BaseOAuth2.validate_state demo2_no_csrf {[ "state" := "abc" ]}
    (state_world (PStr "abc")) = (Ok PNone, state_world (PStr "abc"))
  /\ BaseOAuth2.validate_state demo2_csrf {[ "state" := "abc" ]}
       (state_world (PStr "abc")) = (Ok (PStr "abc"), state_world (PStr "abc"))
  /\ BaseOAuth2.validate_state demo2_csrf {[ "redirect_state" := "abd" ]}
       (state_world (PStr "abc"))
     = (Raise AuthStateForbidden, state_world (PStr "abc"))
  /\ BaseOAuth2.validate_state demo2_csrf {[ "code" := "c" ]}
       (state_world (PStr "abc"))
     = (Raise (AuthMissingParameter "state"), state_world (PStr "abc"))
  /\ BaseOAuth2.validate_state demo2_csrf
       (<["state" := ""]> {[ "redirect_state" := "" ]})
       (state_world (PStr "abc"))
     = (Raise (AuthMissingParameter "state"), state_world (PStr "abc")).
Proof.
  split; [|split; [|split; [|split]]].
  - apply (proj1 (validate_state_cases demo2_no_csrf {[ "state" := "abc" ]}
                    (state_world (PStr "abc")))); reflexivity.
  - destruct (proj2 (validate_state_cases demo2_csrf {[ "state" := "abc" ]}
                       (state_world (PStr "abc"))) "abc")
      as (H & _ & _); [reflexivity | reflexivity | discriminate |].
    apply H. left. reflexivity.
  - destruct (proj2 (validate_state_cases demo2_csrf {[ "redirect_state" := "abd" ]}
                       (state_world (PStr "abc"))) "abc")
      as (_ & H & _); [reflexivity | reflexivity | discriminate |].
    apply (H "abd"); [|discriminate|discriminate].
    right. split; [left|]; reflexivity.
  - destruct (proj2 (validate_state_cases demo2_csrf {[ "code" := "c" ]}
                       (state_world (PStr "abc"))) "abc")
      as (_ & _ & H); [reflexivity | reflexivity | discriminate |].
    apply H; left; reflexivity.
  - destruct (proj2 (validate_state_cases demo2_csrf
                       (<["state" := ""]> {[ "redirect_state" := "" ]})
                       (state_world (PStr "abc"))) "abc")
      as (_ & _ & H); [reflexivity | reflexivity | discriminate |].
    apply H; right; reflexivity.
Defined.

(** C3 (the code at the failing input). With both toggles on, an empty
    stored state and a callback carrying a state, [validate_state] returns
    the empty state: the [elif not state] branch lies under [if state] and
    cannot be reached. *)
Lemma validate_state_empty_state_not_rejected :
  STATE_PARAMETER demo2_csrf = true
  /\ session (state_world (PStr "")) !! state_key demo2_csrf = Some (PStr "")
  /\ BaseOAuth2.validate_state demo2_csrf {[ "state" := "abc" ]}
       (state_world (PStr ""))
     = (Ok (PStr ""), state_world (PStr "")).
Proof. repeat split; vm_compute; reflexivity. Qed.

(** ** BaseOAuth2.auth_complete *)

Section TokenExchange.
Variable url_add_parameters : string -> dict -> string.
Variable self : backend.
Variable data : qs.
Variables (w w' : world) (state : pyval).

Hypothesis callback_clean :
  BaseOAuth2.process_error (params_dict data) = Ok tt.
Hypothesis state_valid :
  BaseOAuth2.validate_state self data w = (Ok state, w').

#[local] Abbreviation exchange :=
  (get_json self (token_request url_add_parameters self data state)).
#[local] Abbreviation auth_complete :=
  (BaseOAuth2.auth_complete url_add_parameters self data w).

Lemma auth_complete_unfold :
  auth_complete =
    match exchange with
    | Ok response =>
        match BaseOAuth2.process_error response with
        | Ok _ =>
            match response !! "access_token" with
            | Some access_token =>
                (BaseOAuth2.do_auth self access_token (Some response), w')
            | None => (Raise (KeyError "access_token"), w')
            end
        | Raise e => (Raise e, w')
        end
    | Raise (HTTPError status_code) =>
        if Z.eqb status_code 400 then (Raise (AuthCanceled None), w')
        else (Raise (HTTPError status_code), w')
    | Raise (KeyError _) => (Raise (AuthUnknownError None), w')
    | Raise e => (Raise e, w')
    end.
Proof.
  unfold BaseOAuth2.auth_complete, BaseOAuth2.except_exchange, bind, lift,
    BaseOAuth2.request_access_token, raise.
  rewrite callback_clean, state_valid.
  fold (token_request url_add_parameters self data state).
  destruct exchange as [response | e].
  - destruct (BaseOAuth2.process_error response) as [[]|]; [|reflexivity].
    destruct (response !! "access_token"); reflexivity.
  - destruct e; try reflexivity.
    destruct (Z.eqb status_code 400); reflexivity.
Qed.

(** HTTP 400 on the exchange is a cancellation. *)
Lemma auth_complete_http_400 :
  exchange = Raise (HTTPError 400) ->
  auth_complete = (Raise (AuthCanceled None), w').
Proof. intros H. rewrite auth_complete_unfold, H. reflexivity. Qed.

(** Any other transport error reaches the caller as it is. *)
Lemma auth_complete_transport_error (e : exn) :
  exchange = Raise e -> passes_through e ->
  auth_complete = (Raise e, w').
Proof.
  intros H Hp. rewrite auth_complete_unfold, H.
  destruct e; try reflexivity; cbn in Hp; [|contradiction].
  destruct (Z.eqb_spec status_code 400); [contradiction | reflexivity].
Qed.

(** A response without [access_token] raises the [KeyError] of the
    subscript, which is evaluated after the [try] statement. *)
Lemma auth_complete_missing_field (response : dict) :
  exchange = Ok response ->
  BaseOAuth2.process_error response = Ok tt ->
  response !! "access_token" = None ->
  auth_complete = (Raise (KeyError "access_token"), w').
Proof.
  intros H Hp Hn. rewrite auth_complete_unfold, H, Hp, Hn. reflexivity.
Qed.

End TokenExchange.

(** C2 (the code at the failing input). The token endpoint answers
    [{"token_type": "bearer"}], without [access_token]: [auth_complete]
    raises [KeyError], not [AuthUnknownError]. *)
Lemma auth_complete_missing_access_token_raises_KeyError :
  fst (BaseOAuth2.auth_complete url_add_parameters_plain
         (demo2 (Ok {[ "token_type" := PStr "bearer" ]}) (Some ∅))
         code_callback (state_world (PStr "abc")))
  = Raise (KeyError "access_token").
Proof. vm_compute. reflexivity. Qed.

(** The two parts of C2 that hold, on the demo backend. *)
Lemma auth_complete_transport_errors_demo :
  fst (BaseOAuth2.auth_complete url_add_parameters_plain
         (demo2 (Raise (HTTPError 400)) (Some ∅))
         code_callback (state_world (PStr "abc")))
  = Raise (AuthCanceled None)
  /\ fst (BaseOAuth2.auth_complete url_add_parameters_plain
            (demo2 (Raise (HTTPError 503)) (Some ∅))
            code_callback (state_world (PStr "abc")))
     = Raise (HTTPError 503).
Proof.
  split.
  - rewrite (auth_complete_http_400 url_add_parameters_plain
               (demo2 (Raise (HTTPError 400)) (Some ∅)) code_callback
               (state_world (PStr "abc")) (state_world (PStr "abc"))
               (PStr "abc"));
      reflexivity.
  - rewrite (auth_complete_transport_error url_add_parameters_plain
               (demo2 (Raise (HTTPError 503)) (Some ∅)) code_callback
               (state_world (PStr "abc")) (state_world (PStr "abc"))
               (PStr "abc") eq_refl eq_refl (HTTPError 503) eq_refl);
      [reflexivity | cbn; lia].
Qed.

(** ** BaseOAuth2.auth_url *)

Lemma dict_get_insert_eq (m : dict) (k : string) (v : pyval) :
  dict_get (<[k := v]> m) k = v.
Proof. unfold dict_get. by rewrite lookup_insert_eq. Qed.

(** C8. With CSRF protection enabled and a [random_string] that returns
    strings of the requested length: when the state slot is absent,
    [auth_url] stores a freshly drawn 32-character token there, changes
    nothing else in the session and builds the url with that token; when
    the slot holds a state, the world is left as it was and the url is
    built with the stored state; in both cases a second call returns the
    same url and leaves the world, hence the stored state, identical. *)
Theorem auth_url_state_slot
    (urlencode : dict -> string) (unquote : string -> string)
    (url_add_parameters : string -> dict -> string)
    (self : backend) (w : world) :
  STATE_PARAMETER self || REDIRECT_STATE self = true ->
  (forall n sd, String.length (fst (random_string self n sd)) = n) ->
  let run := BaseOAuth2.auth_url urlencode unquote url_add_parameters self in
  let url := url_for_state urlencode unquote url_add_parameters self in
  let w1 := snd (run w) in
  (dict_get (session w) (state_key self) = PNone ->
   exists token : string,
     String.length token = 32%nat
     /\ random_string self 32 (seed w) = (token, seed w1)
     /\ session w1 = <[state_key self := PStr token]> (session w)
     /\ fst (run w) = Ok (url (PStr token)))
  /\ (dict_get (session w) (state_key self) ≠ PNone ->
      w1 = w /\ fst (run w) = Ok (url (dict_get (session w) (state_key self))))
  /\ run w1 = (fst (run w), w1).
Proof.
  intros Hon Hlen. cbv zeta.
  unfold BaseOAuth2.auth_url, url_for_state. rewrite Hon.
  unfold bind, session_get, BaseOAuth2.state_token, session_set, ret.
  fold (state_key self).
  destruct (decide (dict_get (session w) (state_key self) = PNone)) as [Hn|Hs].
  - rewrite Hn. rewrite bool_decide_eq_true_2 by reflexivity.
    pose proof (Hlen 32%nat (seed w)) as Hl.
    destruct (random_string self 32 (seed w)) as [token sd] eqn:Hr.
    cbn [fst snd session seed] in *.
    split; [|split].
    + intros _. exists token. auto.
    + intros Hc. contradiction.
    + rewrite !dict_get_insert_eq.
      rewrite bool_decide_eq_false_2 by discriminate. reflexivity.
  - rewrite (bool_decide_eq_false_2 _ Hs). cbn [fst snd].
    split; [|split].
    + intros Hc. contradiction.
    + split; reflexivity.
    + rewrite (bool_decide_eq_false_2 _ Hs). reflexivity.
Qed.

(** The demo backend, from an empty session: a token is minted, and a
    second call changes nothing. *)
Lemma auth_url_state_slot_witness :
  let run :=
    BaseOAuth2.auth_url urlencode_plain unquote_plain url_add_parameters_plain
      demo2_csrf in
  (exists token : string,
      String.length token = 32%nat
      /\ session (snd (run empty_world))
         = <["demo_state" := PStr token]> (session empty_world))
  /\ run (snd (run empty_world)) = (fst (run empty_world), snd (run empty_world)).
Proof.
  assert (Hlen : forall n sd,
             String.length (fst (random_string demo2_csrf n sd)) = n).
  { intros n sd. cbn. generalize (ascii_of_N (97 + sd mod 26)). intros c.
    induction n as [|n IH]; cbn; [reflexivity | now rewrite IH]. }
  destruct (auth_url_state_slot urlencode_plain unquote_plain
              url_add_parameters_plain demo2_csrf empty_world eq_refl Hlen)
    as (Hfresh & _ & Hagain).
  split.
  - destruct (Hfresh eq_refl) as (token & Hl & _ & Hs & _).
    exists token. split; [exact Hl | exact Hs].
  - exact Hagain.
Defined.

(** What [auth_url] leaves in the world when the slot is absent. *)
Lemma auth_url_mints
    (urlencode : dict -> string) (unquote : string -> string)
    (url_add_parameters : string -> dict -> string)
    (self : backend) (w : world) :
  STATE_PARAMETER self || REDIRECT_STATE self = true ->
  dict_get (session w) (state_key self) = PNone ->
  snd (BaseOAuth2.auth_url urlencode unquote url_add_parameters self w)
  = World (<[state_key self := PStr (fst (random_string self 32 (seed w)))]>
             (session w))
          (snd (random_string self 32 (seed w))).
Proof.
  intros Hon Hn. unfold BaseOAuth2.auth_url. rewrite Hon.
  unfold bind, session_get, BaseOAuth2.state_token, session_set, ret.
  fold (state_key self). rewrite Hn.
  rewrite bool_decide_eq_true_2 by reflexivity.
  destruct (random_string self 32 (seed w)) as [token sd]. reflexivity.
Qed.

(** From issuance to validation: the state minted by [auth_url] and echoed
    by the callback, as [state] or as [redirect_state], validates. *)
Lemma minted_state_validates
    (urlencode : dict -> string) (unquote : string -> string)
    (url_add_parameters : string -> dict -> string)
    (self : backend) (w : world) :
  STATE_PARAMETER self || REDIRECT_STATE self = true ->
  (forall n sd, String.length (fst (random_string self n sd)) = n) ->
  dict_get (session w) (state_key self) = PNone ->
  let w1 :=
    snd (BaseOAuth2.auth_url urlencode unquote url_add_parameters self w) in
  exists token : string,
    session w1 !! state_key self = Some (PStr token)
    /\ forall data : qs, supplies data token ->
         BaseOAuth2.validate_state self data w1 = (Ok (PStr token), w1).
Proof.
  intros Hon Hlen Hn. cbv zeta.
  rewrite (auth_url_mints urlencode unquote url_add_parameters self w Hon Hn).
  pose proof (Hlen 32%nat (seed w)) as Hl.
  set (token := fst (random_string self 32 (seed w))) in *.
  exists token. split; [apply lookup_insert_eq|].
  intros data Hsup. apply validate_state_echo; [exact Hon | | | exact Hsup].
  - apply lookup_insert_eq.
  - intros E. rewrite E in Hl. discriminate.
Qed.

(** ** BaseOAuth2.do_auth *)

(** C10. [do_auth] hands the authenticator the token response updated with
    the mapping of the user-data hook: on a shared key the user-data value
    replaces the one of the token response, the other keys of the response
    are kept, and when the hook returns [None] or an empty mapping the
    response is handed over as it is. *)
Theorem do_auth_merges_user_data (self : backend) (access_token : pyval)
    (response : dict) (data : option dict) :
  user_data self access_token (Some response) = Ok data ->
  exists merged : dict,
    BaseOAuth2.do_auth self access_token (Some response)
    = authenticate self (Some merged)
    /\ (forall d k v, data = Some d -> d !! k = Some v -> merged !! k = Some v)
    /\ (forall d k, data = Some d -> d !! k = None ->
        merged !! k = response !! k)
    /\ (data = None \/ data = Some ∅ -> merged = response).
Proof.
  intros Hhook. unfold BaseOAuth2.do_auth. rewrite Hhook. cbn [result_bind].
  eexists. split; [reflexivity|].
  assert (Hr : (if bool_decide (response = ∅) then ∅ else response) = response)
    by (case_bool_decide; congruence).
  rewrite Hr. clear Hr. unfold dict_update.
  split; [|split].
  - intros d k v -> Hk. case_bool_decide as He.
    + subst d. rewrite lookup_empty in Hk. discriminate.
    + apply lookup_union_Some_l, Hk.
  - intros d k -> Hk. case_bool_decide as He.
    + by rewrite (left_id_L ∅ (∪)).
    + by apply lookup_union_r.
  - intros [-> | ->].
    + by rewrite (left_id_L ∅ (∪)).
    + rewrite bool_decide_eq_true_2 by reflexivity.
      by rewrite (left_id_L ∅ (∪)).
Qed.

(** On the demo backend the [id] of the hook wins over the [id] of the
    token endpoint, and [access_token] is kept. *)
Lemma do_auth_merges_user_data_witness :
  exists merged : dict,
    BaseOAuth2.do_auth (demo2 (Ok token_response) (Some hook_data))
      (PStr "tok") (Some token_response)
    = authenticate (demo2 (Ok token_response) (Some hook_data)) (Some merged)
    /\ merged !! "id" = Some (PStr "from-user-data")
    /\ merged !! "access_token" = Some (PStr "tok").
Proof.
  destruct (do_auth_merges_user_data
              (demo2 (Ok token_response) (Some hook_data))
              (PStr "tok") token_response (Some hook_data) eq_refl)
    as (merged & Hrun & Hwin & Hkeep & _).
  exists merged. split; [exact Hrun|]. split.
  - apply (Hwin hook_data); reflexivity.
  - rewrite (Hkeep hook_data "access_token"); reflexivity.
Defined.

(** ** BaseOAuth1.auth_complete *)

Section SetOfTokens.

Lemma py_set_strings (ss : list string) :
  BaseOAuth1.py_set (TokStr <$> ss) = Ok (list_to_set ss).
Proof.
  induction ss as [|s ss IH]; [reflexivity|].
  cbn [fmap list_fmap BaseOAuth1.py_set]. rewrite IH. reflexivity.
Qed.

Lemma py_set_dict (l1 l2 : list token) (d : qs) :
  BaseOAuth1.py_set (l1 ++ TokDict d :: l2) = Raise TypeError.
Proof.
  induction l1 as [|[s|d'] l1 IH]; cbn; [reflexivity | | reflexivity].
  rewrite IH. reflexivity.
Qed.

Lemma remove_token_strings (ss : list string) (s : string) :
  BaseOAuth1.remove_token (TokStr <$> ss) (TokStr s)
  = Ok (TokStr <$> elements (list_to_set ss ∖ {[ s ]} : gset string)).
Proof.
  unfold BaseOAuth1.remove_token. rewrite py_set_strings.
  cbn [result_bind BaseOAuth1.py_set].
  by rewrite (right_id_L ∅ (∪)).
Qed.

(** The set difference keeps one copy of every entry other than [s]. *)
Lemma elements_difference (ss : list string) (s : string) :
  elements (list_to_set ss ∖ {[ s ]} : gset string)
  ≡ₚ remove_dups (filter (λ x, x ≠ s) ss).
Proof.
  apply NoDup_Permutation.
  - apply NoDup_elements.
  - apply NoDup_remove_dups.
  - intros x. rewrite elem_of_elements, elem_of_difference,
      elem_of_list_to_set, elem_of_remove_dups, list_elem_of_filter,
      not_elem_of_singleton.
    tauto.
Qed.

(** On a list without duplicates it removes the entry at its index. *)
Lemma elements_difference_NoDup (ss : list string) (i : nat) (s : string) :
  NoDup ss -> ss !! i = Some s ->
  elements (list_to_set ss ∖ {[ s ]} : gset string) ≡ₚ delete i ss.
Proof.
  intros Hnd Hi.
  rewrite <- (take_drop_middle ss i s Hi) in Hnd.
  apply NoDup_app in Hnd as (Hpre & Hdisj & Hpost).
  apply NoDup_cons in Hpost as (Hs & Hpost).
  apply NoDup_Permutation.
  - apply NoDup_elements.
  - rewrite delete_take_drop. apply NoDup_app. split; [exact Hpre|].
    split; [|exact Hpost].
    intros x Hx Hx'. apply (Hdisj x Hx). by right.
  - intros x. rewrite elem_of_elements, elem_of_difference,
      elem_of_list_to_set, not_elem_of_singleton, delete_take_drop.
    rewrite <- (take_drop_middle ss i s Hi) at 1.
    rewrite !elem_of_app, elem_of_cons. split.
    + intros [[H | [H | H]] Hne]; [by left | contradiction | by right].
    + intros [H | H]; (split; [tauto|]); intros ->.
      * apply (Hdisj s H). by left.
      * contradiction.
Qed.

End SetOfTokens.

Section PendingTokens.
Variable parse_qs : string -> qs.
Variable self : backend.
Variable data : qs.

#[local] Abbreviation run := (BaseOAuth1.auth_complete parse_qs self data).
#[local] Abbreviation scan :=
  (BaseOAuth1.find_token parse_qs self (tokens_key self)
     (data_token self data)).

Lemma find_token_no_match (all rest : list token) (w : world) :
  (forall t, t ∈ rest -> token_id parse_qs self t ≠ Some (data_token self data)) ->
  scan all rest w = (Raise (AuthTokenError "Incorrect tokens"), w).
Proof.
  induction rest as [|t rest IH]; intros Hno; [reflexivity|].
  cbn [BaseOAuth1.find_token].
  assert (Ht : token_id parse_qs self t ≠ Some (data_token self data))
    by (apply Hno; left).
  destruct t as [s|d]; cbn [token_id] in Ht;
    rewrite (bool_decide_eq_false_2 _ Ht);
    apply IH; intros t' Hin; apply Hno; by right.
Qed.

Lemma find_token_first_match (all pre post : list token) (orig : token)
    (w : world) :
  (forall t, t ∈ pre -> token_id parse_qs self t ≠ Some (data_token self data)) ->
  token_id parse_qs self orig = Some (data_token self data) ->
  scan all (pre ++ orig :: post) w =
    match BaseOAuth1.remove_token all orig with
    | Ok remaining =>
        (Ok (match orig with TokDict d => d | TokStr s => parse_qs s end),
         World (<[tokens_key self := PTokens remaining]> (session w)) (seed w))
    | Raise e => (Raise e, w)
    end.
Proof.
  intros Hno Hm. induction pre as [|t pre IH].
  - cbn [app BaseOAuth1.find_token].
    destruct orig as [s|d]; cbn [token_id] in Hm;
      rewrite (bool_decide_eq_true_2 _ Hm);
      unfold bind, lift, session_set, ret;
      destruct (BaseOAuth1.remove_token _ _); reflexivity.
  - cbn [app BaseOAuth1.find_token].
    assert (Ht : token_id parse_qs self t ≠ Some (data_token self data))
      by (apply Hno; left).
    destruct t as [s|d]; cbn [token_id] in Ht;
      rewrite (bool_decide_eq_false_2 _ Ht);
      apply IH; intros t' Hin; apply Hno; by right.
Qed.

(** [auth_complete] once the callback carries no [oauth_problem] and the
    slot holds the list [l]. *)
Lemma auth_complete_unfold_pending (w : world) (l : list token) :
  data !! "oauth_problem" = None ->
  pending self w = PTokens l ->
  run w =
    match l with
    | [] => (Raise (AuthTokenError "Missing unauthorized token"), w)
    | _ =>
        match scan l l w with
        | (Ok token, w') =>
            (result_bind
               (BaseOAuth1.cancel_on_400
                  (BaseOAuth1.access_token self data token))
               (BaseOAuth1.do_auth self), w')
        | (Raise e, w') => (Raise e, w')
        end
    end.
Proof.
  intros Hclean Hl. unfold BaseOAuth1.auth_complete, BaseOAuth1.process_error.
  rewrite Hclean. unfold bind at 1. unfold lift at 1.
  unfold bind at 1. unfold session_get_default.
  fold (tokens_key self). fold (pending self w). rewrite Hl.
  destruct l as [|t l']; [reflexivity|].
  cbn [truthy negb]. rewrite bool_decide_eq_false_2 by discriminate.
  cbn [negb]. fold (data_token self data). unfold bind, lift.
  destruct (scan (t :: l') (t :: l') w) as [[token|e] w']; [|reflexivity].
  destruct (BaseOAuth1.cancel_on_400 _); reflexivity.
Qed.

End PendingTokens.

(** C1 (as amended). For a callback without [oauth_problem]:
    with no pending token [auth_complete] fails with [AuthTokenError];
    with a list of string-encoded entries, when entry [i] is the first one
    whose token id is the callback's, the request goes on with that entry
    and the stored list becomes the set of the entries different from it,
    each kept once and in no particular order, so that on a list without
    duplicates exactly entry [i] is removed and the other N-1 remain;
    when no entry has the callback's token id it fails with
    [AuthTokenError] and the store is untouched. *)
Theorem auth_complete_pending_tokens (parse_qs : string -> qs)
    (self : backend) (data : qs) (w : world) (l : list token) :
  data !! "oauth_problem" = None ->
  pending self w = PTokens l ->
  (l = [] ->
   BaseOAuth1.auth_complete parse_qs self data w
   = (Raise (AuthTokenError "Missing unauthorized token"), w))
  /\ (forall (ss : list string) (i : nat) (s : string),
      l = TokStr <$> ss -> ss !! i = Some s ->
      token_id parse_qs self (TokStr s) = Some (data_token self data) ->
      (forall j s', (j < i)%nat -> ss !! j = Some s' ->
         token_id parse_qs self (TokStr s') ≠ Some (data_token self data)) ->
      exists l' : list token,
        BaseOAuth1.auth_complete parse_qs self data w
        = (exchange_and_finish parse_qs self data s,
           World (<[tokens_key self := PTokens l']> (session w)) (seed w))
        /\ l' ≡ₚ TokStr <$> remove_dups (filter (λ x, x ≠ s) ss)
        /\ (NoDup ss ->
            l' ≡ₚ TokStr <$> delete i ss
            /\ length l' = (length ss - 1)%nat))
  /\ (l ≠ [] ->
      (forall t, t ∈ l ->
         token_id parse_qs self t ≠ Some (data_token self data)) ->
      BaseOAuth1.auth_complete parse_qs self data w
      = (Raise (AuthTokenError "Incorrect tokens"), w)).
Proof.
  intros Hclean Hl.
  rewrite (auth_complete_unfold_pending parse_qs self data w l Hclean Hl).
  split; [|split].
  - intros ->. reflexivity.
  - intros ss i s -> Hi Hm Hfirst.
    exists (TokStr <$> elements (list_to_set ss ∖ {[ s ]} : gset string)).
    split; [|split].
    + assert (Hscan : forall all,
                 BaseOAuth1.find_token parse_qs self (tokens_key self)
                   (data_token self data) all (TokStr <$> ss) w
                 = match BaseOAuth1.remove_token all (TokStr s) with
                   | Ok remaining =>
                       (Ok (parse_qs s),
                        World (<[tokens_key self := PTokens remaining]>
                                 (session w)) (seed w))
                   | Raise e => (Raise e, w)
                   end).
      { intros all. rewrite <- (take_drop_middle ss i s Hi).
        rewrite fmap_app, fmap_cons.
        apply find_token_first_match; [|exact Hm].
        intros t Ht. apply list_elem_of_fmap in Ht as (s' & -> & Hs').
        apply list_elem_of_lookup in Hs' as (j & Hj).
        apply lookup_take_Some in Hj as (Hj & Hlt).
        exact (Hfirst j s' Hlt Hj). }
      rewrite Hscan, remove_token_strings.
      destruct (TokStr <$> ss) as [|t l'] eqn:E; [|reflexivity].
      apply fmap_nil_inv in E. subst ss. discriminate.
    + apply fmap_Permutation, elements_difference.
    + intros Hnd.
      assert (Hp : TokStr <$> elements (list_to_set ss ∖ {[ s ]} : gset string)
                   ≡ₚ TokStr <$> delete i ss)
        by (apply fmap_Permutation, elements_difference_NoDup; assumption).
      split; [exact Hp|].
      rewrite Hp, length_fmap, length_delete; [reflexivity|].
      rewrite Hi. eauto.
  - intros Hne Hno. destruct l as [|t l']; [done|].
    rewrite find_token_no_match by exact Hno. reflexivity.
Qed.

(** C1 (counterexample). Three inputs on which the statement fails.
    The pending list holds the same entry twice and the callback carries
    its token id: the set difference removes both copies, leaving no entry
    where N-1 = 1 should remain. Two different entries carry the
    callback's token id: the first one is removed, also when the second
    was meant. The list is empty and the callback reports
    [oauth_problem]: the failure is [AuthCanceled], raised before the list
    is read. *)
Lemma pending_token_removal_differs :
  (token_id parse_qs_plain demo1 (TokStr token_a) = Some "a"
   /\ session (snd (BaseOAuth1.auth_complete parse_qs_plain demo1
                      {[ "oauth_token" := "a" ]}
                      (pending_world [TokStr token_a; TokStr token_a])))
        !! tokens_key demo1 = Some (PTokens [])
   /\ length ([] : list token)
      ≠ (length [TokStr token_a; TokStr token_a] - 1)%nat)
  /\ (token_id parse_qs_plain demo1 (TokStr token_a2) = Some "a"
      /\ session (snd (BaseOAuth1.auth_complete parse_qs_plain demo1
                         {[ "oauth_token" := "a" ]}
                         (pending_world [TokStr token_a; TokStr token_a2])))
           !! tokens_key demo1 = Some (PTokens [TokStr token_a2]))
  /\ BaseOAuth1.auth_complete parse_qs_plain demo1
       {[ "oauth_problem" := "user_refused" ]} (pending_world [])
     = (Raise (AuthCanceled (Some (PStr "User refused the access"))),
        pending_world []).
Proof.
  split; [split; [|split] | split; [split|]].
  - vm_compute. reflexivity.
  - vm_compute. reflexivity.
  - cbn. lia.
  - vm_compute. reflexivity.
  - vm_compute. reflexivity.
  - vm_compute. reflexivity.
Qed.

(** On the demo backend: no pending token; three distinct pending tokens
    and a callback for the second one; a callback for a token that is not
    pending. *)
Lemma auth_complete_pending_tokens_witness :
  BaseOAuth1.auth_complete parse_qs_plain demo1 {[ "oauth_token" := "b" ]}
    empty_world
  = (Raise (AuthTokenError "Missing unauthorized token"), empty_world)
  /\ (exists l' : list token,
         session (snd (BaseOAuth1.auth_complete parse_qs_plain demo1
                         {[ "oauth_token" := "b" ]}
                         (pending_world
                            [TokStr token_a; TokStr token_b; TokStr token_c])))
           !! tokens_key demo1 = Some (PTokens l')
         /\ l' ≡ₚ [TokStr token_a; TokStr token_c])
  /\ BaseOAuth1.auth_complete parse_qs_plain demo1 {[ "oauth_token" := "z" ]}
       (pending_world [TokStr token_a; TokStr token_b])
     = (Raise (AuthTokenError "Incorrect tokens"),
        pending_world [TokStr token_a; TokStr token_b]).
Proof.
  split; [|split].
  - apply (auth_complete_pending_tokens parse_qs_plain demo1
             {[ "oauth_token" := "b" ]} empty_world []);
      reflexivity.
  - destruct (auth_complete_pending_tokens parse_qs_plain demo1
                {[ "oauth_token" := "b" ]}
                (pending_world [TokStr token_a; TokStr token_b; TokStr token_c])
                [TokStr token_a; TokStr token_b; TokStr token_c])
      as (_ & Hmatch & _); [reflexivity | reflexivity |].
    destruct (Hmatch [token_a; token_b; token_c] 1%nat token_b)
      as (l' & Hrun & _ & Hnodup); [reflexivity | reflexivity | reflexivity | |].
    + intros j s' Hj Hs'. destruct j as [|j]; [|lia].
      injection Hs' as <-. vm_compute. discriminate.
    + exists l'. split.
      * rewrite Hrun. cbn [snd session]. apply lookup_insert_eq.
      * apply Hnodup.
        repeat (apply NoDup_cons; split;
                [rewrite ?elem_of_cons, elem_of_nil; vm_compute; intuition discriminate|]).
        apply NoDup_nil_2.
  - apply (auth_complete_pending_tokens parse_qs_plain demo1
             {[ "oauth_token" := "z" ]}
             (pending_world [TokStr token_a; TokStr token_b])
             [TokStr token_a; TokStr token_b]);
      [reflexivity | reflexivity | discriminate |].
    intros t Ht. apply elem_of_cons in Ht as [-> | Ht];
      [vm_compute; discriminate|].
    apply elem_of_cons in Ht as [-> | Ht]; [vm_compute; discriminate|].
    inversion Ht.
Defined.

(** ** The sentinel of a callback without token parameter *)

Lemma callback_without_token_uses_sentinel (self : backend) (data : qs) :
  data !! OAUTH_TOKEN_PARAMETER_NAME self = None ->
  data_token self data = "no-token".
Proof. intros H. unfold data_token. rewrite H. reflexivity. Qed.

(** On string-encoded entries the sentinel behaves as any token id: no
    entry named [no-token], no match. *)
Lemma auth_complete_sentinel_no_match (parse_qs : string -> qs)
    (self : backend) (data : qs) (w : world) (l : list token) :
  data !! "oauth_problem" = None ->
  data !! OAUTH_TOKEN_PARAMETER_NAME self = None ->
  pending self w = PTokens l -> l ≠ [] ->
  (forall t, t ∈ l -> token_id parse_qs self t ≠ Some "no-token") ->
  BaseOAuth1.auth_complete parse_qs self data w
  = (Raise (AuthTokenError "Incorrect tokens"), w).
Proof.
  intros Hclean Hnone Hl Hne Hno.
  rewrite (auth_complete_unfold_pending parse_qs self data w l Hclean Hl).
  destruct l as [|t l']; [done|].
  rewrite find_token_no_match; [reflexivity|].
  rewrite (callback_without_token_uses_sentinel self data Hnone). exact Hno.
Qed.

(** A string-encoded entry whose token id is literally [no-token] is
    matched by a callback without token parameter, and removed. *)
Lemma sentinel_matches_string_entry :
  BaseOAuth1.auth_complete parse_qs_plain demo1 ∅
    (pending_world [TokStr token_a; TokStr "oauth_token=no-token"])
  = (exchange_and_finish parse_qs_plain demo1 ∅ "oauth_token=no-token",
     pending_world [TokStr token_a]).
Proof. vm_compute. reflexivity. Qed.

(** C9 (the code at the failing input). The pending entry is a structured
    token whose id is literally [no-token] and the callback has no token
    parameter: the entry is matched, but building [set(unauthed_tokens)]
    raises [TypeError] on the dict, so nothing is consumed. *)
Lemma sentinel_match_on_dict_entry_raises_TypeError :
  token_id parse_qs_plain demo1 (TokDict {[ "oauth_token" := "no-token" ]})
    = Some (data_token demo1 ∅)
  /\ BaseOAuth1.auth_complete parse_qs_plain demo1 ∅
       (pending_world [TokDict {[ "oauth_token" := "no-token" ]}])
     = (Raise TypeError,
        pending_world [TokDict {[ "oauth_token" := "no-token" ]}]).
Proof. split; vm_compute; reflexivity. Qed.

(** * Further properties of the module *)

(** ** OAuthAuth: scope and extra data *)

(** X1. [get_scope_argument] is empty exactly when the class scope followed
    by the configured scope is empty; otherwise it is the single parameter
    [SCOPE_PARAMETER_NAME] holding every scope of both lists, in that
    order and with repetitions, joined by [SCOPE_SEPARATOR]. *)
Theorem get_scope_argument_cases (self : backend) :
  (OAuthAuth.get_scope_argument self = ∅
   <-> default [] (DEFAULT_SCOPE self) = []
       /\ default [] (setting_SCOPE self) = [])
  /\ (OAuthAuth.get_scope_argument self ≠ ∅ ->
      OAuthAuth.get_scope_argument self
      = {[ SCOPE_PARAMETER_NAME self :=
             PStr (String.concat (SCOPE_SEPARATOR self)
                     (default [] (DEFAULT_SCOPE self)
                      ++ default [] (setting_SCOPE self))%list) ]}).
Proof.
  unfold OAuthAuth.get_scope_argument, OAuthAuth.get_scope, setting.
  cbv zeta.
  destruct (default [] (DEFAULT_SCOPE self)) as [|a l1] eqn:E1;
    destruct (default [] (setting_SCOPE self)) as [|b l2] eqn:E2;
    cbn [app].
  - rewrite bool_decide_eq_true_2 by reflexivity. split; [tauto|]. congruence.
  - rewrite bool_decide_eq_false_2 by discriminate. split; [|reflexivity].
    split; [|intros [_ H]; discriminate].
    intros H. apply (f_equal (λ m : dict, size m)) in H.
    rewrite map_size_singleton, map_size_empty in H. discriminate.
  - rewrite bool_decide_eq_false_2 by discriminate. split; [|reflexivity].
    split; [|intros [H _]; discriminate].
    intros H. apply (f_equal (λ m : dict, size m)) in H.
    rewrite map_size_singleton, map_size_empty in H. discriminate.
  - rewrite bool_decide_eq_false_2 by discriminate. split; [|reflexivity].
    split; [|intros [H _]; discriminate].
    intros H. apply (f_equal (λ m : dict, size m)) in H.
    rewrite map_size_singleton, map_size_empty in H. discriminate.
Qed.

(** No scope at all gives no parameter; a class scope and a configured
    scope are joined in that order. *)
Lemma get_scope_argument_cases_witness :
  OAuthAuth.get_scope_argument (demo_scoped None (Some [])) = ∅
  /\ OAuthAuth.get_scope_argument
       (demo_scoped (Some ["read"]) (Some ["write"; "read"]))
     = {[ "scope" := PStr "read write read" ]}.
Proof.
  split.
  - apply (proj1 (get_scope_argument_cases (demo_scoped None (Some [])))).
    split; reflexivity.
  - rewrite (proj2 (get_scope_argument_cases
                      (demo_scoped (Some ["read"]) (Some ["write"; "read"]))));
      [reflexivity|].
    vm_compute. discriminate.
Defined.

Section ExtraDataFrame.
Variable response : dict.

Lemma entry_dom (data : dict) (e : entry) (k : string) :
  is_Some (OAuthAuth.extra_data_entry response data e !! k) ->
  is_Some (data !! k) \/ alias_of e = Some k.
Proof.
  destruct (decide (alias_of e = Some k)) as [|Hne]; [by right|].
  rewrite (entry_other_key response data e k Hne). by left.
Qed.

Lemma entries_dom (l : list entry) (data : dict) (k : string) :
  is_Some (foldl (OAuthAuth.extra_data_entry response) data l !! k) ->
  is_Some (data !! k) \/ k ∈ aliases l.
Proof.
  revert data. induction l as [|e l IH]; intros data Hk; [by left|].
  cbn [foldl] in Hk. destruct (IH _ Hk) as [H | H].
  - destruct (entry_dom data e k H) as [H' | H']; [by left|].
    right. apply list_elem_of_omap. exists e. split; [left | exact H'].
  - right. apply list_elem_of_omap in H as (e' & He' & Ha).
    apply list_elem_of_omap. exists e'. split; [by right | exact Ha].
Qed.

End ExtraDataFrame.

(** X2. [extra_data] never surfaces a key that was not asked for: the keys
    of its result are [access_token] and aliases of entries of accepted
    arity, whatever the response holds. *)
Theorem extra_data_keys (self : backend) (response : dict) :
  dom (OAuthAuth.extra_data self response)
  ⊆ {[ "access_token" ]} ∪ list_to_set (aliases (OAuthAuth.names self)).
Proof.
  intros k Hk. apply elem_of_dom in Hk.
  unfold OAuthAuth.extra_data in Hk. cbv zeta in Hk.
  apply entries_dom in Hk as [Hk | Hk].
  - destruct (decide (k = "access_token")) as [->|Hne]; [set_solver|].
    rewrite lookup_singleton_ne in Hk by congruence.
    destruct Hk as [? Hk]. discriminate.
  - apply elem_of_union_r, elem_of_list_to_set, Hk.
Qed.

Section ExtraDataReads.
Variables r1 r2 : dict.

Lemma entry_agree (data : dict) (e : entry) :
  (forall n, source_of e = Some n -> r1 !! n = r2 !! n) ->
  OAuthAuth.extra_data_entry r1 data e = OAuthAuth.extra_data_entry r2 data e.
Proof.
  unfold source_of, OAuthAuth.extra_data_entry. cbv zeta. intros H.
  destruct (_ && _); [|reflexivity].
  destruct (OAuthAuth.unpack _) as [[[n a] d]|]; [|reflexivity].
  unfold dict_get. rewrite (H n eq_refl). reflexivity.
Qed.

Lemma entries_agree (l : list entry) (data : dict) :
  (forall n, n ∈ sources l -> r1 !! n = r2 !! n) ->
  foldl (OAuthAuth.extra_data_entry r1) data l
  = foldl (OAuthAuth.extra_data_entry r2) data l.
Proof.
  revert data. induction l as [|e l IH]; intros data H; [reflexivity|].
  cbn [foldl]. rewrite (entry_agree data e).
  - apply IH. intros n Hn. apply H.
    apply list_elem_of_omap in Hn as (e' & He' & Hs).
    apply list_elem_of_omap. exists e'. split; [by right | exact Hs].
  - intros n Hn. apply H. apply list_elem_of_omap.
    exists e. split; [left | exact Hn].
Qed.

End ExtraDataReads.

(** X3. [extra_data] reads nothing but [access_token] and the source
    fields of its entries: two responses that agree on those give the same
    result. *)
Theorem extra_data_reads_declared_fields (self : backend) (r1 r2 : dict) :
  r1 !! "access_token" = r2 !! "access_token" ->
  (forall n, n ∈ sources (OAuthAuth.names self) -> r1 !! n = r2 !! n) ->
  OAuthAuth.extra_data self r1 = OAuthAuth.extra_data self r2.
Proof.
  intros Hat Hsrc. unfold OAuthAuth.extra_data, dict_get_default. cbv zeta.
  rewrite Hat. apply entries_agree, Hsrc.
Qed.

(** Two responses that differ in an undeclared field. *)
Lemma extra_data_reads_declared_fields_witness :
  OAuthAuth.extra_data (demo_extra email_spec)
    (<["email" := PStr "a@b.com"]> {[ "secret" := PStr "x" ]})
  = OAuthAuth.extra_data (demo_extra email_spec)
      (<["email" := PStr "a@b.com"]> {[ "other" := PInt 3 ]}).
Proof.
  apply extra_data_reads_declared_fields; [reflexivity|].
  intros n Hn. apply list_elem_of_singleton in Hn. subst n. reflexivity.
Defined.

(** ** BaseOAuth1: completion *)

(** X4. [BaseOAuth1.do_auth] hands the authenticator the user data with
    [access_token] in it: the hook's own value when it supplies one, the
    access token otherwise, every other field as the hook returned it. When
    the hook returns [None] the authenticator receives [None], and when the
    hook raises the authenticator is not reached. *)
Theorem oauth1_do_auth_carries_access_token (self : backend) (token : qs) :
  (forall d : dict,
      user_data self (PDict token) None = Ok (Some d) ->
      BaseOAuth1.do_auth self token
      = authenticate self
          (Some (<["access_token" :=
                     default (PDict token) (d !! "access_token")]> d)))
  /\ (user_data self (PDict token) None = Ok None ->
      BaseOAuth1.do_auth self token = authenticate self None)
  /\ (forall e : exn,
      user_data self (PDict token) None = Raise e ->
      BaseOAuth1.do_auth self token = Raise e).
Proof.
  unfold BaseOAuth1.do_auth. split; [|split].
  - intros d ->. cbn [result_bind].
    destruct (d !! "access_token") as [v|] eqn:E; cbn [default].
    + by rewrite insert_id.
    + reflexivity.
  - intros ->. reflexivity.
  - intros e ->. reflexivity.
Qed.

(** The default hook returns an empty mapping: the authenticator of the
    demo backend sees the access token. *)
Lemma oauth1_do_auth_carries_access_token_witness :
  BaseOAuth1.do_auth demo1 {[ "oauth_token" := "at" ]}
  = authenticate demo1
      (Some {[ "access_token" := PDict {[ "oauth_token" := "at" ]} ]}).
Proof.
  rewrite (proj1 (oauth1_do_auth_carries_access_token demo1
                    {[ "oauth_token" := "at" ]}) ∅); reflexivity.
Defined.

(** X5. A callback that reports [oauth_problem] ends [auth_complete] at
    once: the failure is the cancellation or the unknown error of
    [process_error], whatever the session holds, and the world is left as
    it was (no pending token is consumed). *)
Theorem oauth1_provider_error_first (parse_qs : string -> qs)
    (self : backend) (data : qs) (w : world) (problem : string) :
  data !! "oauth_problem" = Some problem ->
  BaseOAuth1.auth_complete parse_qs self data w
  = (Raise (if bool_decide (problem = "user_refused")
            then AuthCanceled (Some (PStr "User refused the access"))
            else AuthUnknownError (Some (PStr ("Error was " +:+ problem)))),
     w).
Proof.
  intros H. unfold BaseOAuth1.auth_complete, BaseOAuth1.process_error.
  rewrite H. unfold bind, lift. case_bool_decide; reflexivity.
Qed.

(** A refusal reported while a token is pending. *)
Lemma oauth1_provider_error_first_witness :
  BaseOAuth1.auth_complete parse_qs_plain demo1
    (<["oauth_problem" := "user_refused"]> {[ "oauth_token" := "a" ]})
    (pending_world [TokStr token_a])
  = (Raise (AuthCanceled (Some (PStr "User refused the access"))),
     pending_world [TokStr token_a]).
Proof.
  apply (oauth1_provider_error_first parse_qs_plain demo1 _
           (pending_world [TokStr token_a]) "user_refused").
  reflexivity.
Defined.

Section TokenRemoval.

Lemma py_set_elem (l : list token) (S : gset string) (s : string) :
  BaseOAuth1.py_set l = Ok S -> s ∈ S -> TokStr s ∈ l.
Proof.
  revert S. induction l as [|[s'|d] l IH]; intros S H Hs; cbn in H.
  - injection H as <-. set_solver.
  - destruct (BaseOAuth1.py_set l) as [S'|e]; [|discriminate].
    cbn in H. injection H as <-.
    apply elem_of_union in Hs as [Hs | Hs].
    + apply elem_of_singleton in Hs. subst s'. left.
    + right. exact (IH S' eq_refl Hs).
  - discriminate.
Qed.

Lemma remove_token_subset (all remaining : list token) (orig : token) :
  BaseOAuth1.remove_token all orig = Ok remaining -> remaining ⊆ all.
Proof.
  unfold BaseOAuth1.remove_token.
  destruct (BaseOAuth1.py_set all) as [S|e] eqn:ES; [|discriminate].
  cbn [result_bind].
  destruct (BaseOAuth1.py_set [orig]) as [S1|e]; [|discriminate].
  cbn [result_bind]. intros [= <-] t Ht.
  apply list_elem_of_fmap in Ht as (s & -> & Hs).
  apply elem_of_elements in Hs. apply elem_of_difference in Hs.
  exact (py_set_elem all S s ES (proj1 Hs)).
Qed.

Lemma remove_token_removes (all remaining : list token) (orig : token) :
  BaseOAuth1.remove_token all orig = Ok remaining -> orig ∉ remaining.
Proof.
  unfold BaseOAuth1.remove_token.
  destruct (BaseOAuth1.py_set all) as [S|e] eqn:ES; [|discriminate].
  cbn [result_bind].
  destruct orig as [s|d]; cbn; [|discriminate].
  intros [= <-] Ht.
  apply list_elem_of_fmap in Ht as (s' & [= <-] & Hs).
  apply elem_of_elements in Hs. apply elem_of_difference in Hs.
  destruct Hs as [_ Hn]. apply Hn.
  apply elem_of_union_l, elem_of_singleton. reflexivity.
Qed.

End TokenRemoval.

Section CompletionFrame.
Variable parse_qs : string -> qs.
Variable self : backend.

(** The loop leaves the world as it was, or stores a list drawn from the
    pending one, without the matched entry, in the slot. *)
Lemma find_token_outcome (name data_token : string)
    (all rest : list token) (w : world) :
  snd (BaseOAuth1.find_token parse_qs self name data_token all rest w) = w
  \/ exists (orig : token) (remaining : list token),
       orig ∈ rest /\ remaining ⊆ all /\ (orig ∉ remaining)
       /\ snd (BaseOAuth1.find_token parse_qs self name data_token all rest w)
          = World (<[name := PTokens remaining]> (session w)) (seed w).
Proof.
  induction rest as [|t rest IH]; [by left|].
  cbn [BaseOAuth1.find_token]. case_bool_decide as Hm.
  - unfold bind, lift, session_set, ret.
    destruct (BaseOAuth1.remove_token all t) as [remaining|e] eqn:E;
      [|by left].
    right. exists t, remaining. split; [left|].
    split; [exact (remove_token_subset _ _ _ E)|].
    split; [exact (remove_token_removes _ _ _ E) | reflexivity].
  - destruct IH as [IH | (orig & remaining & Ho & Hsub & Hno & IH)];
      [by left|].
    right. exists orig, remaining. split; [by right|]. auto.
Qed.

Lemma auth_complete_world (data : qs) (w : world) :
  snd (BaseOAuth1.auth_complete parse_qs self data w) = w
  \/ exists remaining : list token,
       remaining ⊆ tokens_of (pending self w)
       /\ snd (BaseOAuth1.auth_complete parse_qs self data w)
          = World (<[tokens_key self := PTokens remaining]> (session w))
                  (seed w).
Proof.
  remember (snd (BaseOAuth1.auth_complete parse_qs self data w)) as wf eqn:Hf.
  unfold BaseOAuth1.auth_complete in Hf.
  destruct (BaseOAuth1.process_error data) as [[]|e]; [|by left].
  unfold bind at 1 in Hf. unfold lift at 1 in Hf. unfold bind at 1 in Hf.
  unfold session_get_default in Hf.
  fold (tokens_key self) in Hf. fold (pending self w) in Hf.
  destruct (negb (truthy (pending self w))); [by left|].
  destruct (pending self w) as [| | | | |l] eqn:Hp; try by left.
  unfold bind, lift in Hf. cbn [tokens_of].
  destruct (find_token_outcome (tokens_key self)
              (default "no-token" (data !! OAUTH_TOKEN_PARAMETER_NAME self))
              l l w) as [Hw | (orig & remaining & _ & Hsub & _ & Hw)].
  - left.
    destruct (BaseOAuth1.find_token _ _ _ _ _ _ _) as [[tok|e] w'];
      cbn [snd] in *; [|congruence].
    destruct (BaseOAuth1.cancel_on_400 _); cbn [snd] in Hf; congruence.
  - right. exists remaining. split; [exact Hsub|].
    destruct (BaseOAuth1.find_token _ _ _ _ _ _ _) as [[tok|e] w'];
      cbn [snd] in *; [|congruence].
    destruct (BaseOAuth1.cancel_on_400 _); cbn [snd] in Hf; congruence.
Qed.

End CompletionFrame.

(** X6. When the pending-token slot is absent or holds a list,
    [BaseOAuth1.auth_complete] writes nothing but that slot of its own
    backend, and never adds to it: whatever the outcome, every other
    session key and the generator are as before, and every entry pending
    afterwards was pending before. *)
Theorem oauth1_auth_complete_frame (parse_qs : string -> qs)
    (self : backend) (data : qs) (w : world) (l : list token) :
  pending self w = PTokens l ->
  let w' := snd (BaseOAuth1.auth_complete parse_qs self data w) in
  seed w' = seed w
  /\ delete (tokens_key self) (session w')
     = delete (tokens_key self) (session w)
  /\ tokens_of (pending self w') ⊆ l.
Proof.
  intros Hl. cbv zeta.
  destruct (auth_complete_world parse_qs self data w)
    as [-> | (remaining & Hsub & ->)].
  - rewrite Hl. done.
  - rewrite Hl in Hsub. cbn [seed session tokens_of] in *.
    split; [reflexivity|]. split.
    + apply delete_insert_eq.
    + unfold pending, dict_get_default. cbn [session].
      rewrite lookup_insert_eq. exact Hsub.
Qed.

(** A session with another key next to two pending tokens, and a callback
    for the first: the other key stays, and what is pending afterwards was
    pending before. *)
Lemma oauth1_auth_complete_frame_witness :
  let w :=
    World (<["demo_state" := PStr "abc"]>
             {[ "demounauthorized_token_name" :=
                  PTokens [TokStr token_a; TokStr token_b] ]}) 0 in
  let w' :=
    snd (BaseOAuth1.auth_complete parse_qs_plain demo1
           {[ "oauth_token" := "a" ]} w) in
  session w' !! "demo_state" = Some (PStr "abc")
  /\ tokens_of (pending demo1 w') ⊆ [TokStr token_a; TokStr token_b].
Proof.
  cbv zeta.
  destruct (oauth1_auth_complete_frame parse_qs_plain demo1
              {[ "oauth_token" := "a" ]}
              (World (<["demo_state" := PStr "abc"]>
                        {[ "demounauthorized_token_name" :=
                             PTokens [TokStr token_a; TokStr token_b] ]}) 0)
              [TokStr token_a; TokStr token_b])
    as (_ & Hframe & Hsub); [reflexivity|].
  split; [|exact Hsub].
  apply (f_equal (λ m : dict, m !! "demo_state")) in Hframe.
  rewrite !lookup_delete_ne in Hframe by discriminate.
  rewrite Hframe. reflexivity.
Defined.

Section FirstMatch.
Variable parse_qs : string -> qs.
Variable self : backend.
Variable data : qs.

(** The outcome of [auth_complete] when entry [i] of a list of strings is
    the first one carrying the callback's token id. *)
Lemma auth_complete_first_match_strings (w : world) (ss : list string)
    (i : nat) (s : string) :
  data !! "oauth_problem" = None ->
  pending self w = PTokens (TokStr <$> ss) ->
  ss !! i = Some s ->
  token_id parse_qs self (TokStr s) = Some (data_token self data) ->
  (forall j s', (j < i)%nat -> ss !! j = Some s' ->
     token_id parse_qs self (TokStr s') ≠ Some (data_token self data)) ->
  BaseOAuth1.auth_complete parse_qs self data w
  = (exchange_and_finish parse_qs self data s,
     World (<[tokens_key self :=
                PTokens (TokStr <$> elements
                           (list_to_set ss ∖ {[ s ]} : gset string))]>
              (session w))
           (seed w)).
Proof.
  intros Hclean Hl Hi Hm Hfirst.
  rewrite (auth_complete_unfold_pending parse_qs self data w _ Hclean Hl).
  assert (Hscan : forall all,
             BaseOAuth1.find_token parse_qs self (tokens_key self)
               (data_token self data) all (TokStr <$> ss) w
             = match BaseOAuth1.remove_token all (TokStr s) with
               | Ok remaining =>
                   (Ok (parse_qs s),
                    World (<[tokens_key self := PTokens remaining]>
                             (session w)) (seed w))
               | Raise e => (Raise e, w)
               end).
  { intros all. rewrite <- (take_drop_middle ss i s Hi).
    rewrite fmap_app, fmap_cons.
    apply find_token_first_match; [|exact Hm].
    intros t Ht. apply list_elem_of_fmap in Ht as (s' & -> & Hs').
    apply list_elem_of_lookup in Hs' as (j & Hj).
    apply lookup_take_Some in Hj as (Hj & Hlt).
    exact (Hfirst j s' Hlt Hj). }
  rewrite Hscan, remove_token_strings.
  destruct (TokStr <$> ss) as [|t l'] eqn:E; [|reflexivity].
  apply fmap_nil_inv in E. subst ss. discriminate.
Qed.

End FirstMatch.

(** X7. The pending token is consumed before the access-token request is
    sent. When that request fails after a match on a list of string
    entries, [auth_complete] reports a cancellation for HTTP 400 and the
    transport's own error otherwise, and in both cases the matched entry
    is no longer pending. *)
Theorem oauth1_exchange_failure_after_match (parse_qs : string -> qs)
    (self : backend) (data : qs) (w : world) (ss : list string) (i : nat)
    (s : string) (e : exn) :
  data !! "oauth_problem" = None ->
  pending self w = PTokens (TokStr <$> ss) ->
  ss !! i = Some s ->
  token_id parse_qs self (TokStr s) = Some (data_token self data) ->
  (forall j s', (j < i)%nat -> ss !! j = Some s' ->
     token_id parse_qs self (TokStr s') ≠ Some (data_token self data)) ->
  BaseOAuth1.access_token self data (parse_qs s) = Raise e ->
  let out := BaseOAuth1.auth_complete parse_qs self data w in
  (e = HTTPError 400 -> fst out = Raise (AuthCanceled None))
  /\ (e ≠ HTTPError 400 -> fst out = Raise e)
  /\ TokStr s ∉ tokens_of (pending self (snd out)).
Proof.
  intros Hclean Hl Hi Hm Hfirst He. cbv zeta.
  rewrite (auth_complete_first_match_strings parse_qs self data w ss i s
             Hclean Hl Hi Hm Hfirst).
  cbn [fst snd]. unfold exchange_and_finish. rewrite He.
  split; [|split].
  - intros ->. reflexivity.
  - intros Hne. destruct e; try reflexivity. cbn.
    destruct (Z.eqb_spec status_code 400); [congruence | reflexivity].
  - unfold pending, dict_get_default. cbn [session].
    rewrite lookup_insert_eq. cbn [default tokens_of].
    intros Hin. apply list_elem_of_fmap in Hin as (s' & [= <-] & Hs').
    apply elem_of_elements, elem_of_difference in Hs' as [_ Hn].
    apply Hn, elem_of_singleton. reflexivity.
Qed.

(** Two pending tokens, a callback for the second, and a token endpoint
    that answers HTTP 400. *)
Lemma oauth1_exchange_failure_after_match_witness :
  let out :=
    BaseOAuth1.auth_complete parse_qs_plain demo1_refused
      {[ "oauth_token" := "b" ]}
      (pending_world [TokStr token_a; TokStr token_b]) in
  fst out = Raise (AuthCanceled None)
  /\ TokStr token_b ∉ tokens_of (pending demo1_refused (snd out)).
Proof.
  destruct (oauth1_exchange_failure_after_match parse_qs_plain demo1_refused
              {[ "oauth_token" := "b" ]}
              (pending_world [TokStr token_a; TokStr token_b])
              [token_a; token_b] 1%nat token_b (HTTPError 400))
    as (H400 & _ & Hgone);
    [reflexivity | reflexivity | reflexivity | reflexivity | | reflexivity |].
  - intros j s' Hj Hs'. destruct j as [|j]; [|lia].
    injection Hs' as <-. vm_compute. discriminate.
  - split; [exact (H400 eq_refl) | exact Hgone].
Defined.

(** ** BaseOAuth1: issuance *)

(** X8. [BaseOAuth1.auth_url] appends the issued token at the end of the
    pending list, keeps the entries that were pending, in their order, and
    touches nothing else; when the request for the token fails, the error
    reaches the caller and the world is as before. *)
Theorem oauth1_auth_url_appends (parse_qs : string -> qs)
    (urlencode : dict -> string) (self : backend) (ext : endpoints)
    (w : world) (l : list token) :
  pending self w = PTokens l ->
  (forall c : string,
      BaseOAuth1_issue.unauthorized_token self ext = Ok c ->
      BaseOAuth1_issue.auth_url parse_qs urlencode self ext w
      = (Ok (BaseOAuth1_issue.oauth_authorization_request parse_qs urlencode
               self ext (TokStr c)),
         World (<[tokens_key self := PTokens (l ++ [TokStr c])]> (session w))
               (seed w)))
  /\ (forall e : exn,
      BaseOAuth1_issue.unauthorized_token self ext = Raise e ->
      BaseOAuth1_issue.auth_url parse_qs urlencode self ext w = (Raise e, w)).
Proof.
  intros Hl. unfold BaseOAuth1_issue.auth_url. split.
  - intros c ->. unfold bind, lift, session_get_default, session_set, ret.
    fold (tokens_key self). fold (pending self w). rewrite Hl. reflexivity.
  - intros e ->. reflexivity.
Qed.

(** A first token issued into an empty session, and a failing provider. *)
Lemma oauth1_auth_url_appends_witness :
  snd (BaseOAuth1_issue.auth_url parse_qs_plain urlencode_plain demo1
         demo_issue (pending_world [TokStr token_a]))
  = pending_world [TokStr token_a; TokStr token_c]
  /\ BaseOAuth1_issue.auth_url parse_qs_plain urlencode_plain demo1
       (demo_endpoints None None "POST" (Raise (HTTPError 503))) empty_world
     = (Raise (HTTPError 503), empty_world).
Proof.
  split.
  - rewrite (proj1 (oauth1_auth_url_appends parse_qs_plain urlencode_plain
                      demo1 demo_issue (pending_world [TokStr token_a])
                      [TokStr token_a] eq_refl) token_c eq_refl).
    vm_compute. reflexivity.
  - apply (proj2 (oauth1_auth_url_appends parse_qs_plain urlencode_plain
                    demo1 (demo_endpoints None None "POST"
                             (Raise (HTTPError 503)))
                    empty_world [] eq_refl)).
    reflexivity.
Defined.

(** X9. Issuing then completing restores the pending list. From a list of
    distinct string entries, none of which carries the token id [t],
    [auth_url] issues a token with id [t]; a callback for [t] then matches
    that token, goes on with it, and leaves exactly the entries that were
    pending before, all other session keys untouched. *)
Theorem oauth1_issue_then_complete (parse_qs : string -> qs)
    (urlencode : dict -> string) (self : backend) (ext : endpoints)
    (data : qs) (w : world) (ss : list string) (c t : string) :
  data !! "oauth_problem" = None ->
  data !! OAUTH_TOKEN_PARAMETER_NAME self = Some t ->
  pending self w = PTokens (TokStr <$> ss) ->
  NoDup ss ->
  (forall s, s ∈ ss -> token_id parse_qs self (TokStr s) ≠ Some t) ->
  BaseOAuth1_issue.unauthorized_token self ext = Ok c ->
  token_id parse_qs self (TokStr c) = Some t ->
  let w1 := snd (BaseOAuth1_issue.auth_url parse_qs urlencode self ext w) in
  exists l' : list token,
    BaseOAuth1.auth_complete parse_qs self data w1
    = (exchange_and_finish parse_qs self data c,
       World (<[tokens_key self := PTokens l']> (session w)) (seed w))
    /\ l' ≡ₚ TokStr <$> ss.
Proof.
  intros Hclean Ht Hl Hnd Hids Hc Hidc. cbv zeta.
  assert (Hdt : data_token self data = t)
    by (unfold data_token; rewrite Ht; reflexivity).
  assert (Hfresh : c ∉ ss) by (intros Hin; exact (Hids c Hin Hidc)).
  unfold BaseOAuth1_issue.auth_url. rewrite Hc.
  unfold bind at 1. unfold lift at 1. unfold bind at 1.
  unfold session_get_default. fold (tokens_key self). fold (pending self w).
  rewrite Hl. unfold bind, session_set, ret. cbn [snd fst].
  exists (TokStr <$> elements (list_to_set (ss ++ [c]) ∖ {[ c ]} : gset string)).
  split.
  - rewrite (auth_complete_first_match_strings parse_qs self data _
               (ss ++ [c]) (length ss) c); cbn [session seed].
    + rewrite insert_insert_eq. reflexivity.
    + exact Hclean.
    + unfold pending, dict_get_default. cbn [session].
      rewrite lookup_insert_eq. cbn [default].
      rewrite fmap_app. reflexivity.
    + apply list_lookup_middle. reflexivity.
    + rewrite Hdt. exact Hidc.
    + intros j s' Hj Hs'. rewrite Hdt. apply Hids.
      rewrite lookup_app_l in Hs' by exact Hj.
      exact (list_elem_of_lookup_2 _ _ _ Hs').
  - apply fmap_Permutation.
    rewrite (elements_difference_NoDup (ss ++ [c]) (length ss) c).
    + rewrite delete_middle. by rewrite app_nil_r.
    + apply NoDup_app. split; [exact Hnd|]. split.
      * intros x Hx Hx'. apply list_elem_of_singleton in Hx'. by subst x.
      * apply NoDup_singleton.
    + apply list_lookup_middle. reflexivity.
Qed.

(** One token pending, a second one issued, and the callback for it. *)
Lemma oauth1_issue_then_complete_witness :
  exists l' : list token,
    session (snd (BaseOAuth1.auth_complete parse_qs_plain demo1
                    {[ "oauth_token" := "c" ]}
                    (snd (BaseOAuth1_issue.auth_url parse_qs_plain
                            urlencode_plain demo1 demo_issue
                            (pending_world [TokStr token_a]))))) 
      !! tokens_key demo1 = Some (PTokens l')
    /\ l' ≡ₚ [TokStr token_a].
Proof.
  destruct (oauth1_issue_then_complete parse_qs_plain urlencode_plain demo1
              demo_issue {[ "oauth_token" := "c" ]}
              (pending_world [TokStr token_a]) [token_a] token_c "c")
    as (l' & Hrun & Hperm);
    [reflexivity | reflexivity | reflexivity | | | reflexivity | reflexivity |].
  - apply NoDup_singleton.
  - intros s Hs. apply list_elem_of_singleton in Hs. subst s.
    vm_compute. discriminate.
  - exists l'. split; [|exact Hperm].
    rewrite Hrun. cbn [snd session]. apply lookup_insert_eq.
Defined.

(** ** BaseOAuth2: the CSRF state *)

(** X10. [BaseOAuth2.auth_url] writes no session key but the state slot
    of its own backend, whatever the toggles and the session; with both
    CSRF toggles off it writes nothing at all and draws no random
    token. *)
Theorem oauth2_auth_url_frame
    (urlencode : dict -> string) (unquote : string -> string)
    (url_add_parameters : string -> dict -> string)
    (self : backend) (w : world) :
  let w1 :=
    snd (BaseOAuth2.auth_url urlencode unquote url_add_parameters self w) in
  delete (state_key self) (session w1) = delete (state_key self) (session w)
  /\ (STATE_PARAMETER self = false -> REDIRECT_STATE self = false -> w1 = w).
Proof.
  cbv zeta. unfold BaseOAuth2.auth_url.
  unfold bind, session_get, BaseOAuth2.state_token, session_set, ret.
  fold (state_key self).
  destruct (STATE_PARAMETER self || REDIRECT_STATE self) eqn:Hon.
  - case_bool_decide as Hn.
    + destruct (random_string self 32 (seed w)) as [token sd].
      cbn [fst snd session]. split.
      * apply delete_insert_eq.
      * intros Hs Hr. rewrite Hs, Hr in Hon. discriminate.
    + cbn [fst snd]. split; [reflexivity|].
      intros Hs Hr. rewrite Hs, Hr in Hon. discriminate.
  - cbn [fst snd]. split; [reflexivity|].
    intros _ _. reflexivity.
Qed.

(** With both toggles off, the session of the demo backend is not
    written. *)
Lemma oauth2_auth_url_frame_witness :
  snd (BaseOAuth2.auth_url urlencode_plain unquote_plain
         url_add_parameters_plain demo2_no_csrf empty_world)
  = empty_world.
Proof.
  exact (proj2 (oauth2_auth_url_frame urlencode_plain unquote_plain
                  url_add_parameters_plain demo2_no_csrf empty_world)
               eq_refl eq_refl).
Defined.

Section StateChecks.
Variable self : backend.
Variable data : qs.
Variable w : world.

Lemma validate_state_world :
  snd (BaseOAuth2.validate_state self data w) = w.
Proof.
  unfold BaseOAuth2.validate_state.
  destruct (negb _ && negb _); [reflexivity|].
  unfold bind, session_get.
  destruct (truthy (dict_get (session w) _)); [|reflexivity].
  destruct (negb (truthy (py_or _ _))); [reflexivity|].
  cbn [negb]. destruct (negb (py_eq _ _)); reflexivity.
Qed.

Lemma validate_state_absent (s : string) :
  STATE_PARAMETER self || REDIRECT_STATE self = true ->
  session w !! state_key self = Some (PStr s) -> s ≠ "" ->
  data !! "state" = None \/ data !! "state" = Some "" ->
  data !! "redirect_state" = None \/ data !! "redirect_state" = Some "" ->
  BaseOAuth2.validate_state self data w
  = (Raise (AuthMissingParameter "state"), w).
Proof.
  intros Hon Hslot Hs H1 H2.
  assert (Hstate : dict_get (session w) (state_key self) = PStr s)
    by (unfold dict_get; rewrite Hslot; reflexivity).
  assert (Htrue : truthy (PStr s) = true)
    by (cbn; rewrite (bool_decide_eq_false_2 _ Hs); reflexivity).
  unfold BaseOAuth2.validate_state. rewrite (toggles_on self Hon).
  unfold bind, session_get. fold (state_key self). rewrite Hstate, Htrue.
  unfold BaseOAuth2.data_get.
  destruct H1 as [-> | ->], H2 as [-> | ->]; reflexivity.
Qed.

Lemma validate_state_tampered (s v : string) :
  STATE_PARAMETER self || REDIRECT_STATE self = true ->
  session w !! state_key self = Some (PStr s) -> s ≠ "" ->
  supplies data v -> v ≠ "" -> v ≠ s ->
  BaseOAuth2.validate_state self data w = (Raise AuthStateForbidden, w).
Proof.
  intros Hon Hslot Hs Hsup Hv Hne.
  assert (Hstate : dict_get (session w) (state_key self) = PStr s)
    by (unfold dict_get; rewrite Hslot; reflexivity).
  assert (Htrue : truthy (PStr s) = true)
    by (cbn; rewrite (bool_decide_eq_false_2 _ Hs); reflexivity).
  unfold BaseOAuth2.validate_state. rewrite (toggles_on self Hon).
  unfold bind, session_get. fold (state_key self). rewrite Hstate, Htrue.
  rewrite (request_state_supplied data v Hsup Hv).
  cbn [truthy]. rewrite (bool_decide_eq_false_2 _ Hv). cbn [negb].
  unfold py_eq. rewrite bool_decide_eq_false_2 by congruence. reflexivity.
Qed.

End StateChecks.

(** X11. [validate_state] only reads the session, and it has four
    outcomes: no state, the stored state, [AuthMissingParameter] or
    [AuthStateForbidden]. It raises nothing else, in particular never
    [AuthStateMissing]. *)
Theorem validate_state_outcomes (self : backend) (data : qs) (w : world) :
  snd (BaseOAuth2.validate_state self data w) = w
  /\ (fst (BaseOAuth2.validate_state self data w) = Ok PNone
      \/ fst (BaseOAuth2.validate_state self data w)
         = Ok (dict_get (session w) (state_key self))
      \/ fst (BaseOAuth2.validate_state self data w)
         = Raise (AuthMissingParameter "state")
      \/ fst (BaseOAuth2.validate_state self data w)
         = Raise AuthStateForbidden).
Proof.
  split; [apply validate_state_world|].
  unfold BaseOAuth2.validate_state.
  destruct (negb _ && negb _); [by left|].
  unfold bind, session_get. fold (state_key self).
  destruct (truthy (dict_get (session w) (state_key self)));
    [|right; left; reflexivity].
  destruct (negb (truthy (py_or _ _))); [right; right; left; reflexivity|].
  cbn [negb]. destruct (negb (py_eq _ _)).
  - right. right. right. reflexivity.
  - right. left. reflexivity.
Qed.

(** ** BaseOAuth2: completion *)

(** X12. [BaseOAuth2.auth_complete] never writes the world, whatever its
    outcome: the stored state is not consumed by a completion. *)
Theorem oauth2_auth_complete_keeps_world
    (url_add_parameters : string -> dict -> string)
    (self : backend) (data : qs) (w : world) :
  snd (BaseOAuth2.auth_complete url_add_parameters self data w) = w.
Proof.
  unfold BaseOAuth2.auth_complete, BaseOAuth2.except_exchange, bind, lift,
    raise.
  destruct (BaseOAuth2.process_error (params_dict data)) as [[]|e];
    [|reflexivity].
  pose proof (validate_state_world self data w) as Hw.
  destruct (BaseOAuth2.validate_state self data w) as [[state|e] w'];
    cbn [snd] in Hw; subst w'.
  - destruct (BaseOAuth2.request_access_token _ _) as [response|e].
    + destruct (BaseOAuth2.process_error response) as [[]|e]; [|reflexivity].
      destruct (response !! "access_token"); reflexivity.
    + destruct e; try reflexivity.
      destruct (Z.eqb status_code 400); reflexivity.
  - destruct e; try reflexivity.
    destruct (Z.eqb status_code 400); reflexivity.
Qed.

(** X13. An error reported in the callback ends [auth_complete] before the
    state is checked and before any request: the failure is the one
    [process_error] raises for the callback, whatever the session and the
    token endpoint. *)
Theorem oauth2_callback_error_first
    (url_add_parameters : string -> dict -> string)
    (self : backend) (data : qs) (w : world) (e : exn) :
  BaseOAuth2.process_error (params_dict data) = Raise e ->
  BaseOAuth2.auth_complete url_add_parameters self data w = (Raise e, w).
Proof.
  intros H. unfold BaseOAuth2.auth_complete, bind, lift. rewrite H.
  reflexivity.
Qed.

(** A denied callback without any state, on a backend with CSRF on. *)
Lemma oauth2_callback_error_first_witness :
  BaseOAuth2.auth_complete url_add_parameters_plain demo2_csrf
    {[ "error" := "access_denied" ]} (state_world (PStr "abc"))
  = (Raise (AuthCanceled (Some (PStr ""))), state_world (PStr "abc")).
Proof.
  apply oauth2_callback_error_first. reflexivity.
Defined.

(** X14. A CSRF failure ends [auth_complete] before the token request and
    passes the two [except] clauses unchanged, whatever the token endpoint
    would answer. With a toggle on, a non-empty stored state and a clean
    callback: when [state] and [redirect_state] are both missing or empty
    the failure is [AuthMissingParameter]; when the callback's value (its
    [state], or its [redirect_state] when [state] is missing or empty) is
    non-empty and not the stored state, the failure is
    [AuthStateForbidden]. Every callback that does not carry the stored
    state is in one of the two cases. *)
Theorem oauth2_csrf_failure_aborts
    (url_add_parameters : string -> dict -> string)
    (self : backend) (data : qs) (w : world) (s : string) :
  BaseOAuth2.process_error (params_dict data) = Ok tt ->
  STATE_PARAMETER self || REDIRECT_STATE self = true ->
  session w !! state_key self = Some (PStr s) -> s ≠ "" ->
  (data !! "state" = None \/ data !! "state" = Some "" ->
   data !! "redirect_state" = None \/ data !! "redirect_state" = Some "" ->
   BaseOAuth2.auth_complete url_add_parameters self data w
   = (Raise (AuthMissingParameter "state"), w))
  /\ (forall v : string, supplies data v -> v ≠ "" -> v ≠ s ->
      BaseOAuth2.auth_complete url_add_parameters self data w
      = (Raise AuthStateForbidden, w))
  /\ (~ supplies data s ->
      BaseOAuth2.auth_complete url_add_parameters self data w
      = (Raise (AuthMissingParameter "state"), w)
      \/ BaseOAuth2.auth_complete url_add_parameters self data w
         = (Raise AuthStateForbidden, w)).
Proof.
  intros Hclean Hon Hslot Hs.
  assert (Hmiss :
            data !! "state" = None \/ data !! "state" = Some "" ->
            data !! "redirect_state" = None
            \/ data !! "redirect_state" = Some "" ->
            BaseOAuth2.auth_complete url_add_parameters self data w
            = (Raise (AuthMissingParameter "state"), w)).
  { intros H1 H2.
    unfold BaseOAuth2.auth_complete, BaseOAuth2.except_exchange, bind, lift.
    rewrite Hclean, (validate_state_absent self data w s Hon Hslot Hs H1 H2).
    reflexivity. }
  assert (Hforb :
            forall v : string, supplies data v -> v ≠ "" -> v ≠ s ->
            BaseOAuth2.auth_complete url_add_parameters self data w
            = (Raise AuthStateForbidden, w)).
  { intros v Hsup Hv Hne.
    unfold BaseOAuth2.auth_complete, BaseOAuth2.except_exchange, bind, lift.
    rewrite Hclean,
      (validate_state_tampered self data w s v Hon Hslot Hs Hsup Hv Hne).
    reflexivity. }
  split; [exact Hmiss|]. split; [exact Hforb|].
  intros Hnot.
  assert (Hcase : forall k : string,
             (data !! k = None \/ data !! k = Some "")
             \/ exists v, data !! k = Some v /\ v ≠ "").
  { intros k. destruct (data !! k) as [v|]; [|left; left; reflexivity].
    destruct (decide (v = "")) as [->|Hv]; [left; right; reflexivity|].
    right. exists v. split; [reflexivity | exact Hv]. }
  destruct (Hcase "state") as [Hst | (v & Hst & Hv)].
  - destruct (Hcase "redirect_state") as [Hrs | (r & Hrs & Hr)].
    + left. exact (Hmiss Hst Hrs).
    + right. apply (Hforb r); [right; split; assumption | exact Hr |].
      intros ->. apply Hnot. right. split; assumption.
  - right. apply (Hforb v); [left; exact Hst | exact Hv |].
    intros ->. apply Hnot. left. exact Hst.
Qed.

(** A forged state, then an empty one, against a token endpoint that would
    have answered. *)
Lemma oauth2_csrf_failure_aborts_witness :
  BaseOAuth2.auth_complete url_add_parameters_plain demo2_csrf
    (<["code" := "c"]> {[ "state" := "forged" ]}) (state_world (PStr "abc"))
  = (Raise AuthStateForbidden, state_world (PStr "abc"))
  /\ BaseOAuth2.auth_complete url_add_parameters_plain demo2_csrf
       (<["code" := "c"]> {[ "state" := "" ]}) (state_world (PStr "abc"))
     = (Raise (AuthMissingParameter "state"), state_world (PStr "abc")).
Proof.
  split.
  - destruct (oauth2_csrf_failure_aborts url_add_parameters_plain demo2_csrf
                (<["code" := "c"]> {[ "state" := "forged" ]})
                (state_world (PStr "abc")) "abc") as (_ & H & _);
      [reflexivity | reflexivity | reflexivity | discriminate |].
    apply (H "forged"); [left; reflexivity | discriminate | discriminate].
  - destruct (oauth2_csrf_failure_aborts url_add_parameters_plain demo2_csrf
                (<["code" := "c"]> {[ "state" := "" ]})
                (state_world (PStr "abc")) "abc") as (H & _ & _);
      [reflexivity | reflexivity | reflexivity | discriminate |].
    apply H; [right | left]; reflexivity.
Defined.

(** X15. An error inside the token response wins over its access token:
    when the callback is clean and the state valid, a response for which
    [process_error] raises makes [auth_complete] raise the same, and the
    authenticator is not reached even if [access_token] is present. *)
Theorem oauth2_response_error_wins
    (url_add_parameters : string -> dict -> string)
    (self : backend) (data : qs) (w w' : world) (state : pyval)
    (response : dict) (e : exn) :
  BaseOAuth2.process_error (params_dict data) = Ok tt ->
  BaseOAuth2.validate_state self data w = (Ok state, w') ->
  get_json self (token_request url_add_parameters self data state)
  = Ok response ->
  BaseOAuth2.process_error response = Raise e ->
  BaseOAuth2.auth_complete url_add_parameters self data w = (Raise e, w').
Proof.
  intros Hclean Hstate Hex He.
  rewrite (auth_complete_unfold url_add_parameters self data w w' state
             Hclean Hstate).
  rewrite Hex, He. reflexivity.
Qed.

(** The endpoint answers [invalid_grant] together with an access token. *)
Lemma oauth2_response_error_wins_witness :
  BaseOAuth2.auth_complete url_add_parameters_plain
    (demo2 (Ok error_response) (Some ∅)) code_callback
    (state_world (PStr "abc"))
  = (Raise (AuthFailed (Some (PStr "invalid_grant"))),
     state_world (PStr "abc")).
Proof.
  apply (oauth2_response_error_wins url_add_parameters_plain
           (demo2 (Ok error_response) (Some ∅)) code_callback
           (state_world (PStr "abc")) (state_world (PStr "abc"))
           (PStr "abc") error_response);
    reflexivity.
Defined.

(** X16. The success path of [BaseOAuth2.auth_complete]: clean callback,
    valid state, a clean token response with an access token, and a
    user-data hook that returns. The result is what the authenticator
    answers on the token response updated with the user data, and the
    session is as [validate_state] left it. *)
Theorem oauth2_auth_complete_success
    (url_add_parameters : string -> dict -> string)
    (self : backend) (data : qs) (w w' : world) (state token : pyval)
    (response : dict) (hook : option dict) :
  BaseOAuth2.process_error (params_dict data) = Ok tt ->
  BaseOAuth2.validate_state self data w = (Ok state, w') ->
  get_json self (token_request url_add_parameters self data state)
  = Ok response ->
  BaseOAuth2.process_error response = Ok tt ->
  response !! "access_token" = Some token ->
  user_data self token (Some response) = Ok hook ->
  BaseOAuth2.auth_complete url_add_parameters self data w
  = (authenticate self (Some (dict_update response (default ∅ hook))), w').
Proof.
  intros Hclean Hstate Hex Hok Htok Hhook.
  rewrite (auth_complete_unfold url_add_parameters self data w w' state
             Hclean Hstate).
  rewrite Hex, Hok, Htok. unfold BaseOAuth2.do_auth. rewrite Hhook.
  cbn [result_bind]. f_equal. f_equal. f_equal.
  assert (Hr : (if bool_decide (response = ∅) then ∅ else response) = response)
    by (case_bool_decide; congruence).
  rewrite Hr. clear Hr. f_equal.
  destruct hook as [d|]; [|reflexivity].
  change (default ∅ (Some d)) with d. case_bool_decide; congruence.
Qed.

(** The demo backend with a hook: the authenticator of the examples
    answers the access token of the merged response. *)
Lemma oauth2_auth_complete_success_witness :
  BaseOAuth2.auth_complete url_add_parameters_plain
    (demo2 (Ok token_response) (Some hook_data)) code_callback
    (state_world (PStr "abc"))
  = (Ok (PStr "tok"), state_world (PStr "abc")).
Proof.
  rewrite (oauth2_auth_complete_success url_add_parameters_plain
             (demo2 (Ok token_response) (Some hook_data)) code_callback
             (state_world (PStr "abc")) (state_world (PStr "abc"))
             (PStr "abc") (PStr "tok") token_response (Some hook_data));
    reflexivity.
Defined.

(** X17. From issuance to completion in OAuth2. [auth_url] mints a state
    into an empty slot; a clean callback that echoes it, a token endpoint
    that answers a clean response with an access token and a user-data
    hook that returns make [auth_complete] return what the authenticator
    answers on the response updated with the user data. The minted state
    is still in its slot afterwards. *)
Theorem oauth2_issue_then_complete
    (urlencode : dict -> string) (unquote : string -> string)
    (url_add_parameters : string -> dict -> string)
    (self : backend) (data : qs) (w : world) (token : pyval)
    (response : dict) (hook : option dict) :
  STATE_PARAMETER self || REDIRECT_STATE self = true ->
  (forall n sd, String.length (fst (random_string self n sd)) = n) ->
  dict_get (session w) (state_key self) = PNone ->
  let minted := fst (random_string self 32 (seed w)) in
  let w1 :=
    snd (BaseOAuth2.auth_url urlencode unquote url_add_parameters self w) in
  BaseOAuth2.process_error (params_dict data) = Ok tt ->
  supplies data minted ->
  get_json self (token_request url_add_parameters self data (PStr minted))
  = Ok response ->
  BaseOAuth2.process_error response = Ok tt ->
  response !! "access_token" = Some token ->
  user_data self token (Some response) = Ok hook ->
  BaseOAuth2.auth_complete url_add_parameters self data w1
  = (authenticate self (Some (dict_update response (default ∅ hook))), w1)
  /\ session w1 !! state_key self = Some (PStr minted).
Proof.
  intros Hon Hlen Hn minted w1 Hclean Hsup Hex Hok Htok Hhook.
  assert (Hslot : session w1 !! state_key self = Some (PStr minted)).
  { unfold w1.
    rewrite (auth_url_mints urlencode unquote url_add_parameters self w Hon Hn).
    apply lookup_insert_eq. }
  assert (Hne : minted ≠ "").
  { intros E. pose proof (Hlen 32%nat (seed w)) as Hl.
    fold minted in Hl. rewrite E in Hl. discriminate. }
  split; [|exact Hslot].
  rewrite (auth_complete_unfold url_add_parameters self data w1 w1
             (PStr minted) Hclean
             (validate_state_echo self data w1 minted Hon Hslot Hne Hsup)).
  rewrite Hex, Hok, Htok. unfold BaseOAuth2.do_auth. rewrite Hhook.
  cbn [result_bind]. f_equal. f_equal. f_equal.
  assert (Hr : (if bool_decide (response = ∅) then ∅ else response) = response)
    by (case_bool_decide; congruence).
  rewrite Hr. clear Hr. f_equal.
  destruct hook as [d|]; [|reflexivity].
  change (default ∅ (Some d)) with d. case_bool_decide; congruence.
Qed.

(** The demo backend from an empty session: the callback echoes the
    minted state as [redirect_state]. *)
Lemma oauth2_issue_then_complete_witness :
  let w1 :=
    snd (BaseOAuth2.auth_url urlencode_plain unquote_plain
           url_add_parameters_plain
           (demo2 (Ok token_response) (Some hook_data)) empty_world) in
  BaseOAuth2.auth_complete url_add_parameters_plain
    (demo2 (Ok token_response) (Some hook_data))
    (<["code" := "c"]>
       {[ "redirect_state" := "aaaaaaaaaaaaaaaaaaaaaaaaaaaaaaaa" ]}) w1
  = (Ok (PStr "tok"), w1).
Proof.
  assert (Hlen : forall n sd,
             String.length
               (fst (random_string (demo2 (Ok token_response) (Some hook_data))
                       n sd)) = n).
  { intros n sd. cbn. generalize (ascii_of_N (97 + sd mod 26)). intros c.
    induction n as [|n IH]; cbn; [reflexivity | now rewrite IH]. }
  cbv zeta.
  destruct (oauth2_issue_then_complete urlencode_plain unquote_plain
              url_add_parameters_plain
              (demo2 (Ok token_response) (Some hook_data))
              (<["code" := "c"]>
                 {[ "redirect_state" := "aaaaaaaaaaaaaaaaaaaaaaaaaaaaaaaa" ]})
              empty_world (PStr "tok") token_response (Some hook_data)
              eq_refl Hlen eq_refl) as [Hrun _];
    [reflexivity | | reflexivity | reflexivity | reflexivity | reflexivity |].
  - right. split; [left|]; reflexivity.
  - rewrite Hrun. reflexivity.
Defined.

(** ** BaseOAuth2: refresh and revocation *)

Lemma url_or_unset (url : option string) (other : string) :
  url_set url = false -> url_or url other = other.
Proof.
  destruct url as [u|]; cbn; [|reflexivity].
  case_bool_decide; [reflexivity | discriminate].
Qed.

(** X19. What [refresh_token] asks and returns, for every transport. It
    sends one request: to the refresh url when one is configured, to the
    access-token url when none is (absent or empty), with
    [REFRESH_TOKEN_METHOD], the headers of the token exchange, and the
    parameters [grant_type=refresh_token], the token to refresh and the
    client credentials. Its result is the JSON body of the answer to that
    request, or the error the transport raised for it. *)
Theorem refresh_token_behaviour (self : backend) (ext : endpoints)
    (token : pyval) :
  exists req : http_request,
    (forall u, REFRESH_TOKEN_URL ext = Some u -> u ≠ "" -> http_url req = u)
    /\ (url_set (REFRESH_TOKEN_URL ext) = false ->
        http_url req = ACCESS_TOKEN_URL self)
    /\ http_method req = REFRESH_TOKEN_METHOD ext
    /\ http_headers req = BaseOAuth2.auth_headers
    /\ http_params req !! "grant_type" = Some (PStr "refresh_token")
    /\ http_params req !! "refresh_token" = Some token
    /\ http_params req !! "client_id"
       = Some (PStr (fst (get_key_and_secret self)))
    /\ http_params req !! "client_secret"
       = Some (PStr (snd (get_key_and_secret self)))
    /\ BaseOAuth2_tokens.refresh_token self ext token
       = match self_request ext req with
         | Ok r => resp_json r
         | Raise e => Raise e
         end.
Proof.
  exists {| http_url := url_or (REFRESH_TOKEN_URL ext) (ACCESS_TOKEN_URL self);
            http_method := REFRESH_TOKEN_METHOD ext;
            http_params := BaseOAuth2_tokens.refresh_token_params self token;
            http_data := None;
            http_headers := BaseOAuth2.auth_headers;
            http_auth := None |}.
  cbn [http_url http_method http_headers http_params].
  unfold BaseOAuth2_tokens.refresh_token_params.
  destruct (get_key_and_secret self) as [client_id client_secret] eqn:Ek.
  cbn [fst snd].
  split; [|split; [|split; [|split; [|split; [|split; [|split; [|split]]]]]]].
  - intros u Hu Hne. rewrite Hu. cbn.
    by rewrite bool_decide_eq_false_2.
  - intros Hu. apply url_or_unset, Hu.
  - reflexivity.
  - reflexivity.
  - rewrite lookup_insert_ne by discriminate. apply lookup_insert_eq.
  - apply lookup_insert_eq.
  - rewrite !lookup_insert_ne by discriminate. apply lookup_insert_eq.
  - rewrite !lookup_insert_ne by discriminate. apply lookup_singleton_eq.
  - unfold BaseOAuth2_tokens.refresh_token,
      BaseOAuth2_tokens.refresh_token_params,
      BaseOAuth2_tokens.process_refresh_token_response.
    rewrite Ek. destruct (self_request ext _); reflexivity.
Qed.

(** A transport that answers the access-token url only: without a refresh
    url the refresh succeeds, so that url was asked. *)
Lemma refresh_token_behaviour_witness :
  BaseOAuth2_tokens.refresh_token demo2_csrf refresh_endpoints (PStr "old")
  = Ok {[ "access_token" := PStr "new" ]}.
Proof.
  destruct (refresh_token_behaviour demo2_csrf refresh_endpoints (PStr "old"))
    as (req & _ & Hurl & _ & _ & _ & _ & _ & _ & Hrun).
  rewrite Hrun. cbn [self_request refresh_endpoints].
  rewrite (Hurl eq_refl). reflexivity.
Defined.



(** X22. What the two [except] clauses of [BaseOAuth2.auth_complete] do
    with a failure of the token request, once the callback is clean and
    the state valid: HTTP 400 becomes a cancellation, a [KeyError] raised
    by the request becomes [AuthUnknownError], and any other error
    reaches the caller unchanged. *)
Theorem oauth2_exchange_errors
    (url_add_parameters : string -> dict -> string)
    (self : backend) (data : qs) (w w' : world) (state : pyval) (e : exn) :
  BaseOAuth2.process_error (params_dict data) = Ok tt ->
  BaseOAuth2.validate_state self data w = (Ok state, w') ->
  get_json self (token_request url_add_parameters self data state)
  = Raise e ->
  let out := BaseOAuth2.auth_complete url_add_parameters self data w in
  (e = HTTPError 400 -> out = (Raise (AuthCanceled None), w'))
  /\ ((exists key, e = KeyError key) ->
      out = (Raise (AuthUnknownError None), w'))
  /\ (passes_through e -> out = (Raise e, w')).
Proof.
  intros Hclean Hstate Hex. cbv zeta.
  rewrite (auth_complete_unfold url_add_parameters self data w w' state
             Hclean Hstate).
  rewrite Hex. split; [|split].
  - intros ->. reflexivity.
  - intros [key ->]. reflexivity.
  - intros Hp. destruct e; try reflexivity; cbn in Hp; [|contradiction].
    destruct (Z.eqb_spec status_code 400); [contradiction | reflexivity].
Qed.

(** The token endpoint of the demo backend answers 400, then 502. *)
Lemma oauth2_exchange_errors_witness :
  BaseOAuth2.auth_complete url_add_parameters_plain
    (demo2 (Raise (HTTPError 400)) (Some ∅)) code_callback
    (state_world (PStr "abc"))
  = (Raise (AuthCanceled None), state_world (PStr "abc"))
  /\ BaseOAuth2.auth_complete url_add_parameters_plain
       (demo2 (Raise (HTTPError 502)) (Some ∅)) code_callback
       (state_world (PStr "abc"))
     = (Raise (HTTPError 502), state_world (PStr "abc")).
Proof.
  split.
  - destruct (oauth2_exchange_errors url_add_parameters_plain
                (demo2 (Raise (HTTPError 400)) (Some ∅)) code_callback
                (state_world (PStr "abc")) (state_world (PStr "abc"))
                (PStr "abc") (HTTPError 400)) as (H & _ & _);
      [reflexivity | reflexivity | reflexivity |].
    exact (H eq_refl).
  - destruct (oauth2_exchange_errors url_add_parameters_plain
                (demo2 (Raise (HTTPError 502)) (Some ∅)) code_callback
                (state_world (PStr "abc")) (state_world (PStr "abc"))
                (PStr "abc") (HTTPError 502)) as (_ & _ & H);
      [reflexivity | reflexivity | reflexivity |].
    apply H. cbn. lia.
Defined.

(** X21. A callback without token parameter is matched under the token
    id [no-token]. Once it carries no [oauth_problem] and some token is
    pending: when no pending entry has that id it fails with
    [AuthTokenError] and the store is untouched; when the pending entries
    are strings and entry [i] is the first with that id, the flow goes on
    with that entry and it is no longer pending. *)
Theorem oauth1_callback_without_token (parse_qs : string -> qs)
    (self : backend) (data : qs) (w : world) (l : list token) :
  data !! "oauth_problem" = None ->
  data !! OAUTH_TOKEN_PARAMETER_NAME self = None ->
  pending self w = PTokens l -> l ≠ [] ->
  ((forall t, t ∈ l -> token_id parse_qs self t ≠ Some "no-token") ->
   BaseOAuth1.auth_complete parse_qs self data w
   = (Raise (AuthTokenError "Incorrect tokens"), w))
  /\ (forall (ss : list string) (i : nat) (s : string),
      l = TokStr <$> ss -> ss !! i = Some s ->
      token_id parse_qs self (TokStr s) = Some "no-token" ->
      (forall j s', (j < i)%nat -> ss !! j = Some s' ->
         token_id parse_qs self (TokStr s') ≠ Some "no-token") ->
      let out := BaseOAuth1.auth_complete parse_qs self data w in
      fst out = exchange_and_finish parse_qs self data s
      /\ TokStr s ∉ tokens_of (pending self (snd out))).
Proof.
  intros Hclean Hnone Hl Hne.
  pose proof (callback_without_token_uses_sentinel self data Hnone) as Hdt.
  split.
  - intros Hno.
    rewrite (auth_complete_unfold_pending parse_qs self data w l Hclean Hl).
    destruct l as [|t l']; [done|].
    rewrite find_token_no_match; [reflexivity|].
    rewrite Hdt. exact Hno.
  - intros ss i s -> Hi Hm Hfirst. cbv zeta.
    rewrite <- Hdt in Hm.
    rewrite (auth_complete_first_match_strings parse_qs self data w ss i s
               Hclean Hl Hi Hm).
    + cbn [fst snd]. split; [reflexivity|].
      unfold pending, dict_get_default. cbn [session].
      rewrite lookup_insert_eq. cbn [default tokens_of].
      intros Hin. apply list_elem_of_fmap in Hin as (s' & [= <-] & Hs').
      apply elem_of_elements in Hs'. apply elem_of_difference in Hs'.
      apply (proj2 Hs'), elem_of_singleton. reflexivity.
    + intros j s' Hj Hs'. rewrite Hdt. exact (Hfirst j s' Hj Hs').
Qed.

(** A callback without token parameter against two ordinary pending
    tokens, and against a pending entry named [no-token]. *)
Lemma oauth1_callback_without_token_witness :
  BaseOAuth1.auth_complete parse_qs_plain demo1 {[ "oauth_verifier" := "v" ]}
    (pending_world [TokStr token_a; TokStr token_b])
  = (Raise (AuthTokenError "Incorrect tokens"),
     pending_world [TokStr token_a; TokStr token_b])
  /\ TokStr "oauth_token=no-token"
     ∉ tokens_of
         (pending demo1
            (snd (BaseOAuth1.auth_complete parse_qs_plain demo1
                    {[ "oauth_verifier" := "v" ]}
                    (pending_world
                       [TokStr token_a; TokStr "oauth_token=no-token"])))).
Proof.
  split.
  - destruct (oauth1_callback_without_token parse_qs_plain demo1
                {[ "oauth_verifier" := "v" ]}
                (pending_world [TokStr token_a; TokStr token_b])
                [TokStr token_a; TokStr token_b])
      as [H _]; [reflexivity | reflexivity | reflexivity | discriminate |].
    apply H. intros t Ht. apply elem_of_cons in Ht as [-> | Ht];
      [vm_compute; discriminate|].
    apply list_elem_of_singleton in Ht. subst t. vm_compute. discriminate.
  - destruct (oauth1_callback_without_token parse_qs_plain demo1
                {[ "oauth_verifier" := "v" ]}
                (pending_world [TokStr token_a; TokStr "oauth_token=no-token"])
                [TokStr token_a; TokStr "oauth_token=no-token"])
      as [_ H]; [reflexivity | reflexivity | reflexivity | discriminate |].
    destruct (H [token_a; "oauth_token=no-token"] 1%nat "oauth_token=no-token")
      as [_ Hgone]; [reflexivity | reflexivity | reflexivity | | exact Hgone].
    intros j s' Hj Hs'. destruct j as [|j]; [|lia].
    injection Hs' as <-. vm_compute. discriminate.
Defined.
